(** * Weather station telemetry link: sender and receiver sketches

    A shallow embedding of [code/weather_station/weather_station.ino]
    (the sender) and [code/receive/receive.ino] (the receiver), and the
    properties of the framing, sequencing and loss-detection protocol.

    Target: the AVR boards named by the project (Arduino Uno / Nano):
    [int] and [unsigned int] are 16 bits wide, [unsigned long] is 32 bits
    wide, the byte order is little endian and conversions between integer
    types of the same width keep the bit pattern (two's complement). *)

From Stdlib Require Import ZArith QArith Qround Lia Bool List.
From Stdlib Require Import Strings.String Strings.Byte.
From stdpp Require Import base list.
Import ListNotations.

Open Scope Z_scope.

(** ** Fixed-width integers *)

(** [(uint16_t) z] *)
Definition u16 (z : Z) : Z := z mod 65536.

(** [(unsigned long) z] *)
Definition u32 (z : Z) : Z := z mod 4294967296.

(** [(int16_t) z] for an integer [z]: the low 16 bits, read as signed. *)
Definition i16 (z : Z) : Z := (z + 32768) mod 65536 - 32768.

Definition in_int16 (z : Z) : Prop := -32768 <= z <= 32767.

Definition byte_val (b : byte) : Z := Z.of_N (Byte.to_N b).

Definition byte_of_Z (z : Z) : byte :=
  match Byte.of_N (Z.to_N (z mod 256)) with
  | Some b => b
  | None => x00
  end.

(** The two bytes of an [int16_t] in memory, low byte first. *)
Definition int16_bytes (z : Z) : list byte :=
  [byte_of_Z (u16 z); byte_of_Z (u16 z / 256)].

(** The 32 bytes of [int16_t results[16]] as [(byte* ) results] sees them. *)
Definition record_bytes (r : list Z) : list byte :=
  concat (map int16_bytes r).

(** [results[i]] read back from the raw bytes of the array. *)
Definition int16_at (buf : list byte) (i : nat) : Z :=
  i16 (byte_val (nth (2 * i) buf x00) + 256 * byte_val (nth (2 * i + 1) buf x00)).

(** ** The serial line

    Every call on [Serial] is one item of the output trace. *)
Inductive serial_out : Type :=
| PrintChar (c : byte)          (* Serial.print('D'): one byte *)
| WriteByte (b : byte)          (* Serial.write(b): one byte *)
| PrintStr (s : string)         (* Serial.print(F("...")) *)
| PrintInt (z : Z)              (* Serial.print of an integer, in decimal *)
| PrintPercent (num den : Z)    (* Serial.print((float)num / den * 100) *)
| Println.                      (* the line end of println *)

(** ** The receiver: [code/receive/receive.ino] *)
Module Receiver.

Record state : Type := mkState {
  results : list byte;        (* int16_t results[16], as its 32 bytes *)
  lastPacketNumber : Z;       (* uint16_t *)
  receivedPackets : Z;        (* uint16_t *)
  lostPackets : Z;            (* uint16_t *)
  isSynced : bool;
  lastPacketMs : Z            (* unsigned long *)
}.

(** The globals as initialised at start-up. *)
Definition init : state :=
  {| results := repeat x00 32;
     lastPacketNumber := 0;
     receivedPackets := 0;
     lostPackets := 0;
     isSynced := false;
     lastPacketMs := 0 |}.

Definition isNextModulo (current previous : Z) : bool :=
  current =? u16 (previous + 1).

(** The sync / loss bookkeeping of one arrival (lines 73 to 98). *)
Definition track (currentPacketNumber nowMs : Z) (s : state) : state :=
  if negb (isSynced s) || (5000 <? u32 (nowMs - lastPacketMs s)) then
    {| results := results s;
       lastPacketNumber := currentPacketNumber;
       receivedPackets := receivedPackets s;
       lostPackets := lostPackets s;
       isSynced := true;
       lastPacketMs := nowMs |}
  else if negb (isNextModulo currentPacketNumber (lastPacketNumber s)) then
    let looksLikeReset := currentPacketNumber <=? 5 in
    if looksLikeReset then
      {| results := results s;
         lastPacketNumber := currentPacketNumber;
         receivedPackets := receivedPackets s;
         lostPackets := lostPackets s;
         isSynced := isSynced s;
         lastPacketMs := nowMs |}
    else
      let expected := u16 (lastPacketNumber s + 1) in
      let diff := u16 (currentPacketNumber - expected) in
      {| results := results s;
         lastPacketNumber := currentPacketNumber;
         receivedPackets := receivedPackets s;
         lostPackets := u16 (lostPackets s + diff);
         isSynced := isSynced s;
         lastPacketMs := nowMs |}
  else
    {| results := results s;
       lastPacketNumber := currentPacketNumber;
       receivedPackets := receivedPackets s;
       lostPackets := lostPackets s;
       isSynced := isSynced s;
       lastPacketMs := nowMs |}.

(** ['D'], the 32 bytes [p[0] .. p[31]], ['E'] (lines 105 to 114). *)
Definition frame (buf : list byte) : list serial_out :=
  PrintChar "D"%byte
    :: map (fun i => WriteByte (nth i buf x00)) (seq 0 32)
    ++ [PrintChar "E"%byte].

(** The diagnostic text that follows the frame (lines 117 to 135). *)
Definition debug_text (currentPacketNumber : Z) (buf : list byte)
  : list serial_out :=
  [PrintStr "Packet "; PrintInt currentPacketNumber;
   PrintStr " received. Data: "]
    ++ flat_map (fun i => [PrintInt (int16_at buf i); PrintStr " "]) (seq 0 15)
    ++ [Println]
    ++ (if (0 <? int16_at buf 12) || (0 <? int16_at buf 13) then
          [PrintStr "Air Quality - CO2: "; PrintInt (int16_at buf 12);
           PrintStr " ppm, TVOC: "; PrintInt (int16_at buf 13);
           PrintStr " ppb, Baseline: "; PrintInt (int16_at buf 14);
           Println]
        else []).

(** The statistics block at the end of [loop] (lines 139 to 147). The
    sum in the denominator is an [unsigned int] sum. *)
Definition statistics (s : state) : list serial_out :=
  if (receivedPackets s mod 100 =? 0) && (0 <? receivedPackets s) then
    [PrintStr "Statistics - Received: "; PrintInt (receivedPackets s);
     PrintStr ", Lost: "; PrintInt (lostPackets s);
     PrintStr ", Loss rate: ";
     PrintPercent (lostPackets s) (u16 (receivedPackets s + lostPackets s));
     PrintStr "%"; Println]
  else [].

(** [(uint16_t) results[7]] of a record just read. *)
Definition packet_number (payload : list byte) : Z :=
  u16 (int16_at payload 7).

(** The body of [if (radio.available())]: [payload] is what
    [radio.read] copies into [results], [nowMs] what [millis()]
    returns. *)
Definition on_packet (payload : list byte) (nowMs : Z) (s : state)
  : state * list serial_out :=
  let currentPacketNumber := packet_number payload in
  let s1 := track currentPacketNumber nowMs s in
  let s2 :=
    {| results := payload;
       lastPacketNumber := lastPacketNumber s1;
       receivedPackets := u16 (receivedPackets s1 + 1);
       lostPackets := lostPackets s1;
       isSynced := isSynced s1;
       lastPacketMs := lastPacketMs s1 |} in
  (s2, frame payload ++ debug_text currentPacketNumber payload).

(** One pass of [loop()]: [None] when [radio.available()] is false. *)
Definition loop (arrival : option (list byte * Z)) (s : state)
  : state * list serial_out :=
  let '(s', out) :=
    match arrival with
    | Some (payload, nowMs) => on_packet payload nowMs s
    | None => (s, [])
    end in
  (s', out ++ statistics s').

(** Successive passes of [loop()], with the serial output of all. *)
Fixpoint run (arrivals : list (option (list byte * Z))) (s : state)
  : state * list serial_out :=
  match arrivals with
  | [] => (s, [])
  | a :: rest =>
      let '(s1, out1) := loop a s in
      let '(s2, out2) := run rest s1 in
      (s2, out1 ++ out2)
  end.

Definition arrived (a : option (list byte * Z)) : bool :=
  match a with
  | Some _ => true
  | None => false
  end.

(** How often the statistics line occurs in a serial trace. *)
Definition is_statistics (o : serial_out) : bool :=
  match o with
  | PrintStr t => String.eqb t "Statistics - Received: "
  | _ => false
  end.

Definition statistics_lines (out : list serial_out) : nat :=
  length (filter (fun o => is_statistics o = true) out).

End Receiver.

(** ** Floating point

    The sketches compute with [float] only to scale a sensor reading and
    to convert it to [int16_t]. The arithmetic itself is kept abstract;
    what is fixed is the conversion to an integer type, which truncates
    toward zero and is defined only when the truncated value fits. *)
Class FloatModel : Type := {
  float : Type;
  float_of_Z : Z -> float;       (* literals such as 100.0, and 0 *)
  fadd : float -> float -> float;
  fmul : float -> float -> float;
  fval : float -> option Q;      (* the value of a finite float *)
  fcast_undef : float -> Z       (* what a conversion that is not defined
                                    leaves behind *)
}.

(** Truncation toward zero. *)
Definition Qtrunc (q : Q) : Z := Z.quot (Qnum q) (Z.pos (Qden q)).

(** [(int16_t) f] for a [float] [f]. Whatever an undefined conversion
    produces is stored in an [int16_t], hence the [i16]. *)
Definition float_to_int16 `{FloatModel} (f : float) : Z :=
  match fval f with
  | Some q =>
      if (-32768 <=? Qtrunc q) && (Qtrunc q <=? 32767) then Qtrunc q
      else i16 (fcast_undef f)
  | None => i16 (fcast_undef f)
  end.

(** Rational numbers as floats, with exact arithmetic: a model in which
    the definitions can be run. *)
Definition exact_floats : FloatModel :=
  {| float := Q;
     float_of_Z := inject_Z;
     fadd := Qplus;
     fmul := Qmult;
     fval := Some;
     fcast_undef := fun _ => 0 |}.

(** ** The sender: [code/weather_station/weather_station.ino]

    The text the sender prints on its own serial line is diagnostic
    only and is left out; everything else of [loop()] is here. *)
Module Sender.
Section WithFloats.
Context `{FM : FloatModel}.

Definition RESET_INTERVAL : Z := 3600000.

Record state : Type := mkState {
  bme_sensor_available : bool;
  mlx_sensor_available : bool;
  light_sensor_available : bool;
  ccs811_sensor_available : bool;
  radio_available : bool;
  InterruptCounter : Z;               (* int *)
  wind_revolutions_this_cycle : Z;    (* uint16_t *)
  firstLoop : bool;
  lastState : bool;                   (* true is HIGH *)
  lastChanged : Z;                    (* unsigned long *)
  accumulated_rain_tips : Z;          (* uint16_t *)
  rain_data_pending : bool;
  results : list Z;                   (* int16_t results[16] *)
  packetNumber : Z;                   (* uint16_t *)
  lastTransmissionTime : Z;           (* unsigned long *)
  successfulTransmissions : Z;        (* uint16_t *)
  failedTransmissions : Z;            (* uint16_t *)
  time_stamp : float;
  reset_pin : bool                    (* level driven on RESET_PIN *)
}.

(** What one pass of [loop()] reads from the outside world, in the
    order of the calls. *)
Record inputs : Type := mkInputs {
  bme_temperature : float;
  bme_pressure : float;
  bme_humidity : float;
  mlx_object_temp : float;
  mlx_ambient_temp : float;
  lux_raw : Z;                        (* uint32_t TSL2591_Read_Lux() *)
  ccs_data_ready : bool;
  ccs_co2 : Z;                        (* uint16_t *)
  ccs_tvoc : Z;                       (* uint16_t *)
  ccs_baseline : Z;                   (* uint16_t *)
  reed_level : bool;                  (* digitalRead(RAIN_REED_PIN) *)
  reed_millis : Z;                    (* millis() in the debounce test *)
  reed_millis_set : Z;                (* millis() stored in lastChanged *)
  rain_analog : Z;                    (* analogRead, 0 to 1023 *)
  rain_digital : bool;                (* digitalRead(RAIN_DROP_DIGITAL_PIN) *)
  wind_pulses : Z;                    (* rising edges during the window *)
  tx_millis_start : Z;
  radio_write : bool;                 (* result of radio.write *)
  tx_millis_end : Z;
  reset_millis : Z                    (* millis() in checkAutoReset *)
}.

(** *** Assignments to the globals *)

Definition set_result (i : nat) (v : Z) (s : state) : state :=
  mkState (bme_sensor_available s) (mlx_sensor_available s)
    (light_sensor_available s) (ccs811_sensor_available s)
    (radio_available s) (InterruptCounter s)
    (wind_revolutions_this_cycle s) (firstLoop s) (lastState s)
    (lastChanged s) (accumulated_rain_tips s) (rain_data_pending s)
    (<[i := v]> (results s)) (packetNumber s) (lastTransmissionTime s)
    (successfulTransmissions s) (failedTransmissions s) (time_stamp s)
    (reset_pin s).

Definition set_wind (counter revolutions : Z) (s : state) : state :=
  mkState (bme_sensor_available s) (mlx_sensor_available s)
    (light_sensor_available s) (ccs811_sensor_available s)
    (radio_available s) counter revolutions (firstLoop s) (lastState s)
    (lastChanged s) (accumulated_rain_tips s) (rain_data_pending s)
    (results s) (packetNumber s) (lastTransmissionTime s)
    (successfulTransmissions s) (failedTransmissions s) (time_stamp s)
    (reset_pin s).

(** The five globals of the rain gauge. *)
Definition set_rain (first last : bool) (changed tips : Z) (pending : bool)
    (s : state) : state :=
  mkState (bme_sensor_available s) (mlx_sensor_available s)
    (light_sensor_available s) (ccs811_sensor_available s)
    (radio_available s) (InterruptCounter s)
    (wind_revolutions_this_cycle s) first last changed tips pending
    (results s) (packetNumber s) (lastTransmissionTime s)
    (successfulTransmissions s) (failedTransmissions s) (time_stamp s)
    (reset_pin s).

(** The four globals of the transmission bookkeeping. *)
Definition set_tx (number duration successes failures : Z) (s : state)
  : state :=
  mkState (bme_sensor_available s) (mlx_sensor_available s)
    (light_sensor_available s) (ccs811_sensor_available s)
    (radio_available s) (InterruptCounter s)
    (wind_revolutions_this_cycle s) (firstLoop s) (lastState s)
    (lastChanged s) (accumulated_rain_tips s) (rain_data_pending s)
    (results s) number duration successes failures (time_stamp s)
    (reset_pin s).

Definition set_time_stamp (t : float) (s : state) : state :=
  mkState (bme_sensor_available s) (mlx_sensor_available s)
    (light_sensor_available s) (ccs811_sensor_available s)
    (radio_available s) (InterruptCounter s)
    (wind_revolutions_this_cycle s) (firstLoop s) (lastState s)
    (lastChanged s) (accumulated_rain_tips s) (rain_data_pending s)
    (results s) (packetNumber s) (lastTransmissionTime s)
    (successfulTransmissions s) (failedTransmissions s) t (reset_pin s).

Definition set_reset_pin (level : bool) (s : state) : state :=
  mkState (bme_sensor_available s) (mlx_sensor_available s)
    (light_sensor_available s) (ccs811_sensor_available s)
    (radio_available s) (InterruptCounter s)
    (wind_revolutions_this_cycle s) (firstLoop s) (lastState s)
    (lastChanged s) (accumulated_rain_tips s) (rain_data_pending s)
    (results s) (packetNumber s) (lastTransmissionTime s)
    (successfulTransmissions s) (failedTransmissions s) (time_stamp s)
    level.

(** The globals after [setup()], which probes the sensors and the
    radio; it leaves [initializeCCS811] only once the chip answered. *)
Definition init (bme mlx light radio : bool) : state :=
  {| bme_sensor_available := bme;
     mlx_sensor_available := mlx;
     light_sensor_available := light;
     ccs811_sensor_available := true;
     radio_available := radio;
     InterruptCounter := 0;
     wind_revolutions_this_cycle := 0;
     firstLoop := true;
     lastState := false;
     lastChanged := 0;
     accumulated_rain_tips := 0;
     rain_data_pending := false;
     results := repeat 0 16;
     packetNumber := 0;
     lastTransmissionTime := 0;
     successfulTransmissions := 0;
     failedTransmissions := 0;
     time_stamp := float_of_Z 0;
     reset_pin := true |}.

(** *** The functions called by [loop()] *)

Definition readBME280Data (i : inputs) (s : state) : state :=
  if bme_sensor_available s then
    set_result 3 (float_to_int16 (fmul (bme_humidity i) (float_of_Z 100)))
      (set_result 2 (float_to_int16 (fmul (bme_pressure i) (float_of_Z 10)))
        (set_result 1
           (float_to_int16 (fmul (bme_temperature i) (float_of_Z 100))) s))
  else
    set_result 3 0 (set_result 2 0 (set_result 1 0 s)).

Definition readMLX90614Data (i : inputs) (s : state) : state :=
  if mlx_sensor_available s then
    set_result 9 (float_to_int16 (fmul (mlx_ambient_temp i) (float_of_Z 100)))
      (set_result 8
         (float_to_int16 (fmul (mlx_object_temp i) (float_of_Z 100))) s)
  else
    set_result 9 0 (set_result 8 0 s).

Definition readTSL2591Data (i : inputs) (s : state) : state :=
  if light_sensor_available s then
    set_result 4 (i16 (Z.min (lux_raw i) 65535)) s
  else
    set_result 4 0 s.

Definition readCCS811Data (i : inputs) (s : state) : state :=
  if ccs811_sensor_available s then
    if ccs_data_ready i then
      set_result 14 (i16 (ccs_baseline i))
        (set_result 13 (i16 (ccs_tvoc i))
          (set_result 12 (i16 (ccs_co2 i)) s))
    else
      set_result 14 0 (set_result 13 0 (set_result 12 0 s))
  else
    set_result 14 0 (set_result 13 0 (set_result 12 0 s)).

Definition readRainReedData (i : inputs) (s : state) : state :=
  let currentState := reed_level i in
  let s1 :=
    if firstLoop s then
      set_rain false currentState (lastChanged s)
        (accumulated_rain_tips s) (rain_data_pending s) s
    else s in
  let s2 :=
    if negb (Bool.eqb currentState (lastState s1)) then
      if 250 <? u32 (reed_millis i - lastChanged s1) then
        let s' :=
          if currentState && negb (lastState s1) then
            set_rain (firstLoop s1) (lastState s1) (lastChanged s1)
              (u16 (accumulated_rain_tips s1 + 1)) true s1
          else s1 in
        set_rain (firstLoop s') currentState (reed_millis_set i)
          (accumulated_rain_tips s') (rain_data_pending s') s'
      else s1
    else s1 in
  set_result 5 (i16 (accumulated_rain_tips s2)) s2.

Definition readRainDropData (i : inputs) (s : state) : state :=
  let isRaining := negb (rain_digital i) in
  set_result 11 (i16 (rain_analog i))
    (set_result 10 (i16 (if isRaining then 1 else 0)) s).

(** The interrupt handler [countup] runs once per pulse while the
    window is open; [InterruptCounter] is read after it is closed. *)
Definition readAnemometerData (i : inputs) (s : state) : state :=
  let counter := i16 (0 + wind_pulses i) in
  let s1 := set_wind counter (u16 counter) s in
  set_result 6 (i16 (wind_revolutions_this_cycle s1)) s1.

Definition transmitData (i : inputs) (s : state) : state :=
  if radio_available s then
    let s1 :=
      if radio_write i then
        let s' :=
          set_tx (packetNumber s)
            (u32 (tx_millis_end i - tx_millis_start i))
            (u16 (successfulTransmissions s + 1))
            (failedTransmissions s) s in
        if rain_data_pending s' then
          set_rain (firstLoop s') (lastState s') (lastChanged s') 0 false s'
        else s'
      else
        set_tx (packetNumber s) (lastTransmissionTime s)
          (successfulTransmissions s)
          (u16 (failedTransmissions s + 1)) s in
    set_tx (u16 (packetNumber s1 + 1)) (lastTransmissionTime s1)
      (successfulTransmissions s1) (failedTransmissions s1) s1
  else s.

Definition checkAutoReset (i : inputs) (s : state) : state :=
  if RESET_INTERVAL <? reset_millis i then set_reset_pin false s else s.

(** The record handed to [radio.write] in this pass, if the radio is
    there: the 32 bytes of [results] as they are when [transmitData]
    is called. *)
Definition before_transmit (i : inputs) (s : state) : state :=
  let s0 := set_time_stamp (fadd (time_stamp s) (float_of_Z 1)) s in
  let s1 := set_result 0 (float_to_int16 (time_stamp s0)) s0 in
  let s2 := readBME280Data i s1 in
  let s3 := readMLX90614Data i s2 in
  let s4 := readTSL2591Data i s3 in
  let s5 := readCCS811Data i s4 in
  let s6 := readRainReedData i s5 in
  let s7 := readRainDropData i s6 in
  let s8 := readAnemometerData i s7 in
  let s9 := set_result 7 (i16 (packetNumber s8)) s8 in
  set_result 15 0 s9.

Definition transmitted (i : inputs) (s : state) : option (list byte) :=
  if radio_available s then
    Some (record_bytes (results (before_transmit i s)))
  else None.

(** One pass of [loop()]. *)
Definition loop (i : inputs) (s : state) : state :=
  checkAutoReset i (transmitData i (before_transmit i s)).

(** *** Observations on the rain gauge

    The tests of [readRainReedData], named: the pass sees a level that
    differs from [lastState] after the first-pass initialisation and the
    debounce test lets it through. *)
Definition edge_validated (i : inputs) (s : state) : bool :=
  negb (firstLoop s)
  && negb (Bool.eqb (reed_level i) (lastState s))
  && (250 <? u32 (reed_millis i - lastChanged s)).

(** ... and it is a change from LOW to HIGH, which counts as a tip. *)
Definition tip_counted (i : inputs) (s : state) : bool :=
  edge_validated i s && reed_level i && negb (lastState s).

Definition tips (i : inputs) (s : state) : Z :=
  if tip_counted i s then 1 else 0.

(** Level changes let through over successive samples of the pin. *)
Fixpoint registered_edges (ticks : list inputs) (s : state) : nat :=
  match ticks with
  | [] => 0
  | i :: rest =>
      ((if edge_validated i s then 1 else 0)
       + registered_edges rest (readRainReedData i s))%nat
  end.

(** The sixteen fields at the time of [transmitData], written out. *)
Definition encoded_record (i : inputs) (s : state) : list Z :=
  [ float_to_int16 (fadd (time_stamp s) (float_of_Z 1));
    if bme_sensor_available s
    then float_to_int16 (fmul (bme_temperature i) (float_of_Z 100)) else 0;
    if bme_sensor_available s
    then float_to_int16 (fmul (bme_pressure i) (float_of_Z 10)) else 0;
    if bme_sensor_available s
    then float_to_int16 (fmul (bme_humidity i) (float_of_Z 100)) else 0;
    if light_sensor_available s then i16 (Z.min (lux_raw i) 65535) else 0;
    i16 (if tip_counted i s then u16 (accumulated_rain_tips s + 1)
         else accumulated_rain_tips s);
    i16 (u16 (i16 (0 + wind_pulses i)));
    i16 (packetNumber s);
    if mlx_sensor_available s
    then float_to_int16 (fmul (mlx_object_temp i) (float_of_Z 100)) else 0;
    if mlx_sensor_available s
    then float_to_int16 (fmul (mlx_ambient_temp i) (float_of_Z 100)) else 0;
    i16 (if negb (rain_digital i) then 1 else 0);
    i16 (rain_analog i);
    if ccs811_sensor_available s && ccs_data_ready i
    then i16 (ccs_co2 i) else 0;
    if ccs811_sensor_available s && ccs_data_ready i
    then i16 (ccs_tvoc i) else 0;
    if ccs811_sensor_available s && ccs_data_ready i
    then i16 (ccs_baseline i) else 0;
    0 ].

(** What holds of the globals between two passes of [loop()]. *)
Definition well_formed (s : state) : Prop :=
  length (results s) = 16%nat
  /\ 0 <= accumulated_rain_tips s < 65536
  /\ (rain_data_pending s = false -> accumulated_rain_tips s = 0).

End WithFloats.
End Sender.

(** ** The encoder as the specification words it *)

Definition clamp_int16 (z : Z) : Z := Z.max (-32768) (Z.min 32767 z).

(** Rounding to the nearest integer, halves away from zero. *)
Definition round_nearest (q : Q) : Z :=
  if Qle_bool 0 q then Qfloor (q + (1 # 2)) else Qceiling (q - (1 # 2)).

(** [round(value * scale)], clamped to [-32768, 32767]. *)
Definition spec_encode_field (value scale : Q) : Z :=
  clamp_int16 (round_nearest (value * scale)).

(** ** Values used in the examples *)

(** A record that is zero except for its sequence field, as bytes. *)
Definition record_with_sequence (n : Z) : list byte :=
  record_bytes (<[7%nat := i16 n]> (repeat 0 16)).

(** [n] records numbered from 0, one second apart, each followed by
    nothing else. *)
Definition numbered_arrivals (n : nat) : list (option (list byte * Z)) :=
  map (fun k => Some (record_with_sequence (Z.of_nat k), 1000 * Z.of_nat k))
      (seq 0 n).

(** A pass of the sender's [loop()] in which every sensor reads zero, the
    rain pins are at [reed] and HIGH (dry), nothing turns the anemometer,
    the clock shows [t] and [radio.write] returns [ok]. *)
Definition pass (reed : bool) (t : Z) (ok : bool) : @Sender.inputs exact_floats :=
  @Sender.mkInputs exact_floats
    0%Q 0%Q 0%Q            (* temperature, pressure, humidity *)
    0%Q 0%Q                (* infrared object and ambient temperature *)
    0                      (* lux *)
    false 0 0 0            (* air quality: no data ready *)
    reed t t               (* reed level, millis() twice *)
    0 true                 (* rain detector: analog, digital *)
    0                      (* wind pulses *)
    t ok t                 (* millis(), radio.write, millis() *)
    t.                     (* millis() in checkAutoReset *)

(** The same at time 1000 and with a successful send, with a temperature
    and an illuminance reading. *)
Definition bright_pass (temperature : Q) (lux : Z) : @Sender.inputs exact_floats :=
  @Sender.mkInputs exact_floats
    temperature 0%Q 0%Q 0%Q 0%Q lux false 0 0 0 false 1000 1000 0 true 0
    1000 true 1000 1000.

(** The sender after [setup()] with every sensor and the radio found. *)
Definition sender_start : @Sender.state exact_floats :=
  @Sender.init exact_floats true true true true.

(** A sender that has sampled the reed pin LOW once and then counted one
    tip that two failed sends left pending. *)
Definition one_tip_pending : @Sender.state exact_floats :=
  Sender.loop (pass false 3000 false)
    (Sender.loop (pass true 2000 false)
       (Sender.loop (pass false 1000 true) sender_start)).

(** What reaches the receiver from successive passes of the sender when
    the radio delivers exactly the records whose [radio.write] returned
    true, each at the sender's clock. *)
Fixpoint on_air (passes : list (@Sender.inputs exact_floats))
    (s : @Sender.state exact_floats) : list (option (list byte * Z)) :=
  match passes with
  | [] => []
  | i :: rest =>
      (if Sender.radio_write i then
         match Sender.transmitted i s with
         | Some payload => Some (payload, Sender.tx_millis_end i)
         | None => None
         end
       else None)
        :: on_air rest (Sender.loop i s)
  end.

(** A receiver in the SYNCED state. *)
Definition synced_at (last lost now : Z) : Receiver.state :=
  {| Receiver.results := repeat x00 32;
     Receiver.lastPacketNumber := last;
     Receiver.receivedPackets := 1;
     Receiver.lostPackets := lost;
     Receiver.isSynced := true;
     Receiver.lastPacketMs := now |}.

(** ** The rest of the sender: [setup()] and what a send prints *)
Module SenderIO.
Section WithFloats.
Context `{FM : FloatModel}.

(** What [setup()] hears from the hardware. *)
Record probes : Type := mkProbes {
  bme_begin : bool;             (* bme.begin(0x76) *)
  mlx_begin : bool;             (* mlx.begin() *)
  tsl_init : Z;                 (* TSL2591_Init() *)
  ccs_begin : list Z;           (* the successive results of ccs811.begin() *)
  radio_begin : bool            (* radio.begin() *)
}.

(** The globals as declared, before [setup()] has run. *)
Definition boot : Sender.state :=
  Sender.mkState false false false false false 0 0 true false 0 0 false
    (repeat 0 16) 0 0 0 0 (float_of_Z 0) false.

Definition set_available (bme mlx light ccs radio : bool) (s : Sender.state)
  : Sender.state :=
  Sender.mkState bme mlx light ccs radio (Sender.InterruptCounter s)
    (Sender.wind_revolutions_this_cycle s) (Sender.firstLoop s)
    (Sender.lastState s) (Sender.lastChanged s)
    (Sender.accumulated_rain_tips s) (Sender.rain_data_pending s)
    (Sender.results s) (Sender.packetNumber s)
    (Sender.lastTransmissionTime s) (Sender.successfulTransmissions s)
    (Sender.failedTransmissions s) (Sender.time_stamp s) (Sender.reset_pin s).

Definition initializeBME280 (p : probes) (s : Sender.state) : Sender.state :=
  let status := bme_begin p in
  if negb status then
    set_available false (Sender.mlx_sensor_available s)
      (Sender.light_sensor_available s) (Sender.ccs811_sensor_available s)
      (Sender.radio_available s) s
  else
    set_available true (Sender.mlx_sensor_available s)
      (Sender.light_sensor_available s) (Sender.ccs811_sensor_available s)
      (Sender.radio_available s) s.

Definition initializeMLX90614 (p : probes) (s : Sender.state) : Sender.state :=
  if mlx_begin p then
    set_available (Sender.bme_sensor_available s) true
      (Sender.light_sensor_available s) (Sender.ccs811_sensor_available s)
      (Sender.radio_available s) s
  else
    set_available (Sender.bme_sensor_available s) false
      (Sender.light_sensor_available s) (Sender.ccs811_sensor_available s)
      (Sender.radio_available s) s.

Definition initializeTSL2591 (p : probes) (s : Sender.state) : Sender.state :=
  if tsl_init p =? 0 then
    set_available (Sender.bme_sensor_available s)
      (Sender.mlx_sensor_available s) true
      (Sender.ccs811_sensor_available s) (Sender.radio_available s) s
  else
    set_available (Sender.bme_sensor_available s)
      (Sender.mlx_sensor_available s) false
      (Sender.ccs811_sensor_available s) (Sender.radio_available s) s.

(** [while (ccs811.begin() != 0) delay(1000);] over the answers the chip
    gives: [None] when none of them is 0, the loop is still turning. *)
Fixpoint initializeCCS811 (answers : list Z) (s : Sender.state)
  : option Sender.state :=
  match answers with
  | [] => None
  | answer :: later =>
      if negb (answer =? 0) then initializeCCS811 later s
      else
        Some (set_available (Sender.bme_sensor_available s)
                (Sender.mlx_sensor_available s)
                (Sender.light_sensor_available s) true
                (Sender.radio_available s) s)
  end.

Definition initializeRadio (p : probes) (s : Sender.state) : Sender.state :=
  if radio_begin p then
    set_available (Sender.bme_sensor_available s)
      (Sender.mlx_sensor_available s) (Sender.light_sensor_available s)
      (Sender.ccs811_sensor_available s) true s
  else
    set_available (Sender.bme_sensor_available s)
      (Sender.mlx_sensor_available s) (Sender.light_sensor_available s)
      (Sender.ccs811_sensor_available s) false s.

(** [setup()]: the reset pin is driven HIGH, then the sensors and the
    radio are probed in this order. *)
Definition setup (p : probes) : option Sender.state :=
  let s0 := Sender.set_reset_pin true boot in
  let s1 := initializeBME280 p s0 in
  let s2 := initializeMLX90614 p s1 in
  let s3 := initializeTSL2591 p s2 in
  match initializeCCS811 (ccs_begin p) s3 with
  | Some s4 => Some (initializeRadio p s4)
  | None => None
  end.

Definition printTransmissionStats (s : Sender.state) : list serial_out :=
  [PrintStr "Transmission stats - Success: ";
   PrintInt (Sender.successfulTransmissions s);
   PrintStr ", Failed: "; PrintInt (Sender.failedTransmissions s);
   PrintStr ", Success rate: ";
   PrintPercent (Sender.successfulTransmissions s)
     (u16 (Sender.successfulTransmissions s + Sender.failedTransmissions s));
   PrintStr "%"; Println]
    ++ (if Sender.rain_data_pending s then
          [PrintStr "Pending rain tips: ";
           PrintInt (Sender.accumulated_rain_tips s); PrintStr " tips"; Println]
        else []).

(** What [transmitData] writes to the serial line; the statistics are
    printed with the globals as the send has left them. *)
Definition transmitData_serial (i : Sender.inputs) (s : Sender.state)
  : list serial_out :=
  if Sender.radio_available s then
    (if Sender.radio_write i then
       (if Sender.rain_data_pending s then
          [PrintStr "Rain tips successfully transmitted: ";
           PrintInt (Sender.accumulated_rain_tips s); PrintStr " tips"; Println]
        else [])
         ++ [PrintStr "Packet "; PrintInt (Sender.packetNumber s);
             PrintStr " transmitted successfully in ";
             PrintInt (u32 (Sender.tx_millis_end i - Sender.tx_millis_start i));
             PrintStr " ms"; Println]
     else
       [PrintStr "Failed to transmit packet "; PrintInt (Sender.packetNumber s);
        PrintStr " after 3 retries"; Println]
         ++ (if Sender.rain_data_pending s then
               [PrintStr "Rain tips preserved for next transmission. Total accumulated: ";
                PrintInt (Sender.accumulated_rain_tips s);
                PrintStr " tips"; Println]
             else []))
      ++ (if u16 (Sender.packetNumber s + 1) mod 100 =? 0 then
            printTransmissionStats (Sender.transmitData i s)
          else [])
  else
    [PrintStr "Radio not available, skipping transmission"; Println].

(** Successive passes of [loop()]. *)
Fixpoint passes (inputs : list Sender.inputs) (s : Sender.state)
  : Sender.state :=
  match inputs with
  | [] => s
  | i :: later => passes later (Sender.loop i s)
  end.

(** What [transmitData] prints over successive passes. *)
Fixpoint transmit_log (inputs : list Sender.inputs) (s : Sender.state)
  : list serial_out :=
  match inputs with
  | [] => []
  | i :: later =>
      transmitData_serial i (Sender.before_transmit i s)
        ++ transmit_log later (Sender.loop i s)
  end.

Definition is_transmission_stats (o : serial_out) : bool :=
  match o with
  | PrintStr t => String.eqb t "Transmission stats - Success: "
  | _ => false
  end.

Definition transmission_stats_lines (out : list serial_out) : nat :=
  length (filter (fun o => is_transmission_stats o = true) out).

End WithFloats.
End SenderIO.

(** ** Streams of arrivals at the receiver *)

(** The arrival is handled in the SYNCED branch and is either the next
    number or a number above 5. *)
Definition counted_arrival (payload : list byte) (nowMs : Z)
    (s : Receiver.state) : bool :=
  Receiver.isSynced s
  && (u32 (nowMs - Receiver.lastPacketMs s) <=? 5000)
  && (Receiver.isNextModulo (Receiver.packet_number payload)
        (Receiver.lastPacketNumber s)
      || (5 <? Receiver.packet_number payload)).

(** Every arrival of the run is a [counted_arrival]. *)
Fixpoint steady (arrivals : list (option (list byte * Z)))
    (s : Receiver.state) : bool :=
  match arrivals with
  | [] => true
  | a :: later =>
      match a with
      | Some (payload, nowMs) => counted_arrival payload nowMs s
      | None => true
      end
      && steady later (fst (Receiver.loop a s))
  end.

(** Records numbered [first], [first + 1], ... arriving at [times]. *)
Fixpoint numbered_from (first : Z) (times : list Z)
  : list (option (list byte * Z)) :=
  match times with
  | [] => []
  | t :: later =>
      Some (record_with_sequence first, t) :: numbered_from (first + 1) later
  end.

(** * Properties of the receiver *)

Section ReceiverFacts.
Import Receiver.

Lemma frame_of_payload (payload : list byte) :
  length payload = 32%nat ->
  frame payload = PrintChar "D"%byte :: map WriteByte payload ++ [PrintChar "E"%byte].
Proof.
  intros Hlen. unfold frame. do 2 f_equal.
  do 33 (destruct payload as [|? payload]; try discriminate Hlen).
  reflexivity.
Qed.

Lemma track_baseline cur now s : lastPacketNumber (track cur now s) = cur.
Proof.
  unfold track.
  repeat match goal with |- context [if ?b then _ else _] => destruct b end;
    reflexivity.
Qed.

Lemma track_time cur now s : lastPacketMs (track cur now s) = now.
Proof.
  unfold track.
  repeat match goal with |- context [if ?b then _ else _] => destruct b end;
    reflexivity.
Qed.

Lemma track_received cur now s :
  receivedPackets (track cur now s) = receivedPackets s.
Proof.
  unfold track.
  repeat match goal with |- context [if ?b then _ else _] => destruct b end;
    reflexivity.
Qed.

Lemma track_synced cur now s : isSynced (track cur now s) = true.
Proof.
  unfold track. destruct (isSynced s) eqn:Hs; simpl.
  - repeat match goal with |- context [if ?b then _ else _] => destruct b end;
      simpl; auto.
  - reflexivity.
Qed.

Lemma loop_arrival_state payload now s :
  fst (loop (Some (payload, now)) s)
  = {| results := payload;
       lastPacketNumber := packet_number payload;
       receivedPackets := u16 (receivedPackets s + 1);
       lostPackets := lostPackets (track (packet_number payload) now s);
       isSynced := true;
       lastPacketMs := now |}.
Proof.
  unfold loop, on_packet. simpl.
  rewrite track_baseline, track_time, track_received, track_synced.
  reflexivity.
Qed.

Lemma loop_idle_state s : fst (loop None s) = s.
Proof. reflexivity. Qed.

Lemma u16_diff_50 (last : Z) :
  u16 (u16 (last + 50) - u16 (last + 1)) = 49.
Proof.
  unfold u16. rewrite <- Zminus_mod.
  replace (last + 50 - (last + 1)) with 49 by lia. reflexivity.
Qed.

(** C1. An arrival handled in the SYNCED branch (the receiver is synced
    and the arrival is within 5000 ms of the previous one) whose sequence
    number is not the previous one plus 1 modulo 65536: the arriving
    number becomes the baseline; if it is at most 5 the loss counter is
    unchanged (sender restart); otherwise (arriving - (previous + 1)) mod
    65536 is added to the loss counter, which is a uint16_t, so the sum is
    reduced modulo 65536. N followed by N + 50 (above 5) adds 49: the
    counter goes from c to c + 49 whenever that fits 16 bits. *)
Theorem C1_out_of_sequence_loss (payload : list byte) (nowMs : Z) (s : state) :
  isSynced s = true ->
  u32 (nowMs - lastPacketMs s) <= 5000 ->
  isNextModulo (packet_number payload) (lastPacketNumber s) = false ->
  lastPacketNumber (fst (loop (Some (payload, nowMs)) s)) = packet_number payload
  /\ (packet_number payload <= 5 ->
      lostPackets (fst (loop (Some (payload, nowMs)) s)) = lostPackets s)
  /\ (5 < packet_number payload ->
      lostPackets (fst (loop (Some (payload, nowMs)) s))
      = u16 (lostPackets s
             + u16 (packet_number payload - u16 (lastPacketNumber s + 1))))
  /\ (5 < packet_number payload ->
      packet_number payload = u16 (lastPacketNumber s + 50) ->
      lostPackets (fst (loop (Some (payload, nowMs)) s))
      = u16 (lostPackets s + 49)
      /\ (0 <= lostPackets s < 65536 - 49 ->
          lostPackets (fst (loop (Some (payload, nowMs)) s))
          = lostPackets s + 49)).
Proof.
  intros Hsync Hgap Hnext.
  rewrite loop_arrival_state. simpl.
  assert (Hidle : (5000 <? u32 (nowMs - lastPacketMs s)) = false)
    by (apply Z.ltb_ge; exact Hgap).
  unfold track. rewrite Hsync, Hidle, Hnext. simpl.
  split; [reflexivity|].
  split; [intros Hsmall; apply Z.leb_le in Hsmall; rewrite Hsmall; reflexivity|].
  assert (Hbig : forall cur, 5 < cur -> (cur <=? 5) = false)
    by (intros cur Hc; apply Z.leb_gt; exact Hc).
  split.
  - intros Hlarge. rewrite (Hbig _ Hlarge). reflexivity.
  - intros Hlarge Hfifty. rewrite (Hbig _ Hlarge). simpl.
    rewrite Hfifty, u16_diff_50.
    split; [reflexivity|].
    intros Hfit. unfold u16. apply Z.mod_small. lia.
Qed.

Lemma C1_out_of_sequence_loss_witness :
  lastPacketNumber
    (fst (loop (Some (record_with_sequence 60, 2000)) (synced_at 10 7 1000)))
  = 60
  /\ lostPackets
       (fst (loop (Some (record_with_sequence 60, 2000)) (synced_at 10 7 1000)))
     = 56.
Proof.
  destruct (C1_out_of_sequence_loss (record_with_sequence 60) 2000
              (synced_at 10 7 1000))
    as (Hbase & _ & _ & Hfifty).
  - reflexivity.
  - vm_compute. discriminate.
  - reflexivity.
  - split; [exact Hbase|].
    destruct Hfifty as [_ Hexact].
    + vm_compute. reflexivity.
    + reflexivity.
    + rewrite Hexact; [reflexivity | vm_compute; split; [discriminate | reflexivity]].
Defined.

(** C6. A synced receiver that gets the sequence number previous + 1
    modulo 65536 takes it as the new baseline and leaves the loss counter
    as it is; 0 after 65535 is such an arrival. *)
Theorem C6_in_order_no_loss (payload : list byte) (nowMs : Z) (s : state) :
  isSynced s = true ->
  isNextModulo (packet_number payload) (lastPacketNumber s) = true ->
  lastPacketNumber (fst (loop (Some (payload, nowMs)) s)) = packet_number payload
  /\ lostPackets (fst (loop (Some (payload, nowMs)) s)) = lostPackets s
  /\ isNextModulo 0 65535 = true.
Proof.
  intros Hsync Hnext.
  rewrite loop_arrival_state. simpl.
  split; [reflexivity|]. split; [|reflexivity].
  unfold track. rewrite Hsync, Hnext. simpl.
  destruct (5000 <? u32 (nowMs - lastPacketMs s)); reflexivity.
Qed.

Lemma C6_in_order_no_loss_witness :
  lastPacketNumber
    (fst (loop (Some (record_with_sequence 0, 2000)) (synced_at 65535 7 1000)))
  = 0
  /\ lostPackets
       (fst (loop (Some (record_with_sequence 0, 2000)) (synced_at 65535 7 1000)))
     = 7.
Proof.
  destruct (C6_in_order_no_loss (record_with_sequence 0) 2000
              (synced_at 65535 7 1000))
    as (Hbase & Hlost & _).
  - reflexivity.
  - reflexivity.
  - split; [exact Hbase | exact Hlost].
Defined.

(** C7. When the receiver is not yet synced (no record has arrived), or
    more than 5000 ms have passed since the previous arrival, the arriving
    sequence number becomes the baseline whatever its value and the loss
    counter is unchanged. The receiver starts unsynced. *)
Theorem C7_resync_adopts_baseline (payload : list byte) (nowMs : Z) (s : state) :
  isSynced s = false \/ 5000 < u32 (nowMs - lastPacketMs s) ->
  lastPacketNumber (fst (loop (Some (payload, nowMs)) s)) = packet_number payload
  /\ lostPackets (fst (loop (Some (payload, nowMs)) s)) = lostPackets s
  /\ isSynced (fst (loop (Some (payload, nowMs)) s)) = true
  /\ isSynced init = false.
Proof.
  intros Hcond.
  rewrite loop_arrival_state. simpl.
  split; [reflexivity|]. split; [|split; reflexivity].
  unfold track.
  assert (Hbranch :
    negb (isSynced s) || (5000 <? u32 (nowMs - lastPacketMs s)) = true).
  { destruct Hcond as [Hunsynced | Hidle].
    - rewrite Hunsynced. reflexivity.
    - apply Z.ltb_lt in Hidle. rewrite Hidle. apply orb_true_r. }
  rewrite Hbranch. reflexivity.
Qed.

Lemma C7_resync_adopts_baseline_witness :
  lastPacketNumber
    (fst (loop (Some (record_with_sequence 4711, 7001)) (synced_at 10 7 2000)))
  = 4711
  /\ lostPackets
       (fst (loop (Some (record_with_sequence 4711, 7001)) (synced_at 10 7 2000)))
     = 7
  /\ lastPacketNumber (fst (loop (Some (record_with_sequence 4711, 3)) init))
     = 4711.
Proof.
  destruct (C7_resync_adopts_baseline (record_with_sequence 4711) 7001
              (synced_at 10 7 2000))
    as (Hbase & Hlost & _).
  - right. reflexivity.
  - destruct (C7_resync_adopts_baseline (record_with_sequence 4711) 3 init)
      as (Hfirst & _).
    + left. reflexivity.
    + split; [exact Hbase | split; [exact Hlost | exact Hfirst]].
Defined.

(** C8. Every pass of loop() in which a record is available, whatever
    branch the sequence check takes, writes 'D', the 32 bytes of the record
    as they were received, and 'E' to the serial line (the diagnostic text
    follows), increments receivedPackets (a uint16_t) and stores the time
    of the arrival; the record is kept in results. *)
Theorem C8_every_arrival_forwarded (payload : list byte) (nowMs : Z) (s : state) :
  length payload = 32%nat ->
  snd (loop (Some (payload, nowMs)) s)
  = (PrintChar "D"%byte :: map WriteByte payload ++ [PrintChar "E"%byte])
      ++ debug_text (packet_number payload) payload
      ++ statistics (fst (loop (Some (payload, nowMs)) s))
  /\ receivedPackets (fst (loop (Some (payload, nowMs)) s))
     = u16 (receivedPackets s + 1)
  /\ lastPacketMs (fst (loop (Some (payload, nowMs)) s)) = nowMs
  /\ results (fst (loop (Some (payload, nowMs)) s)) = payload.
Proof.
  intros Hlen. split.
  - unfold loop, on_packet.
    cbn -[frame debug_text statistics track].
    rewrite (frame_of_payload payload Hlen).
    rewrite <- app_assoc. reflexivity.
  - rewrite loop_arrival_state. simpl. repeat split.
Qed.

Lemma C8_every_arrival_forwarded_witness :
  firstn 34 (snd (loop (Some (record_with_sequence 60, 2000)) (synced_at 10 7 1000)))
  = PrintChar "D"%byte :: map WriteByte (record_with_sequence 60)
      ++ [PrintChar "E"%byte]
  /\ receivedPackets
       (fst (loop (Some (record_with_sequence 60, 2000)) (synced_at 10 7 1000)))
     = 2.
Proof.
  destruct (C8_every_arrival_forwarded (record_with_sequence 60) 2000
              (synced_at 10 7 1000))
    as (Hout & Hcount & _).
  - reflexivity.
  - split; [rewrite Hout; reflexivity | rewrite Hcount; reflexivity].
Defined.

(** C9, as the code behaves. After the 100th record the statistics line
    is written in the pass that received it and again in each pass of
    loop() in which no record is available: three lines here, for two idle
    passes. *)
Theorem C9_statistics_repeat_when_idle :
  receivedPackets (fst (run (numbered_arrivals 100) init)) = 100
  /\ statistics_lines (snd (run (numbered_arrivals 100) init)) = 1%nat
  /\ receivedPackets (fst (run (numbered_arrivals 100 ++ [None; None]) init))
     = 100
  /\ statistics_lines
       (snd (run (numbered_arrivals 100 ++ [None; None]) init)) = 3%nat.
Proof. vm_compute. repeat split. Qed.

Lemma run_synced (arrivals : list (option (list byte * Z))) (s : state) :
  isSynced (fst (run arrivals s)) = isSynced s || existsb arrived arrivals.
Proof.
  revert s. induction arrivals as [|a rest IH]; intros s.
  - simpl. rewrite orb_false_r. reflexivity.
  - simpl. destruct (loop a s) as [s1 out1] eqn:Hloop.
    specialize (IH s1). destruct (run rest s1) as [s2 out2]. simpl in *.
    rewrite IH.
    assert (Hs1 : s1 = fst (loop a s)) by (rewrite Hloop; reflexivity).
    destruct a as [[payload now]|].
    + rewrite Hs1, loop_arrival_state. simpl. rewrite orb_true_r. reflexivity.
    + rewrite Hs1, loop_idle_state. simpl. reflexivity.
Qed.

(** C10. The receiver starts with isSynced false; after any passes of
    loop() isSynced is true exactly when it was true before or a record
    arrived in one of them, so it never goes back to false; every arrival,
    also one after an idle gap, leaves isSynced true and takes the arriving
    sequence number as the baseline. *)
Theorem C10_synced_is_permanent :
  isSynced init = false
  /\ (forall (arrivals : list (option (list byte * Z))) (s : state),
        isSynced (fst (run arrivals s))
        = isSynced s || existsb arrived arrivals)
  /\ (forall (payload : list byte) (nowMs : Z) (s : state),
        isSynced (fst (loop (Some (payload, nowMs)) s)) = true
        /\ lastPacketNumber (fst (loop (Some (payload, nowMs)) s))
           = packet_number payload)
  /\ (forall s : state, isSynced (fst (loop None s)) = isSynced s).
Proof.
  split; [reflexivity|]. split; [exact run_synced|]. split.
  - intros payload nowMs s. rewrite loop_arrival_state. simpl. auto.
  - intros s. reflexivity.
Qed.

End ReceiverFacts.

(** * Properties of the sender *)

Section SenderFacts.
Context `{FM : FloatModel}.
Import Sender.

Ltac project :=
  cbn [set_time_stamp set_result set_rain set_wind set_tx set_reset_pin
       bme_sensor_available mlx_sensor_available light_sensor_available
       ccs811_sensor_available radio_available InterruptCounter
       wind_revolutions_this_cycle firstLoop lastState lastChanged
       accumulated_rain_tips rain_data_pending results packetNumber
       lastTransmissionTime successfulTransmissions failedTransmissions
       time_stamp reset_pin].

(** Each function that fills the record, as a sequence of assignments. *)

Lemma readBME280Data_assigns (i : inputs) (s : state) :
  readBME280Data i s
  = set_result 3
      (if bme_sensor_available s
       then float_to_int16 (fmul (bme_humidity i) (float_of_Z 100)) else 0)
      (set_result 2
         (if bme_sensor_available s
          then float_to_int16 (fmul (bme_pressure i) (float_of_Z 10)) else 0)
         (set_result 1
            (if bme_sensor_available s
             then float_to_int16 (fmul (bme_temperature i) (float_of_Z 100))
             else 0) s)).
Proof. unfold readBME280Data. destruct (bme_sensor_available s); reflexivity. Qed.

Lemma readMLX90614Data_assigns (i : inputs) (s : state) :
  readMLX90614Data i s
  = set_result 9
      (if mlx_sensor_available s
       then float_to_int16 (fmul (mlx_ambient_temp i) (float_of_Z 100)) else 0)
      (set_result 8
         (if mlx_sensor_available s
          then float_to_int16 (fmul (mlx_object_temp i) (float_of_Z 100))
          else 0) s).
Proof. unfold readMLX90614Data. destruct (mlx_sensor_available s); reflexivity. Qed.

Lemma readTSL2591Data_assigns (i : inputs) (s : state) :
  readTSL2591Data i s
  = set_result 4
      (if light_sensor_available s then i16 (Z.min (lux_raw i) 65535) else 0) s.
Proof. unfold readTSL2591Data. destruct (light_sensor_available s); reflexivity. Qed.

Lemma readCCS811Data_assigns (i : inputs) (s : state) :
  readCCS811Data i s
  = set_result 14
      (if ccs811_sensor_available s && ccs_data_ready i
       then i16 (ccs_baseline i) else 0)
      (set_result 13
         (if ccs811_sensor_available s && ccs_data_ready i
          then i16 (ccs_tvoc i) else 0)
         (set_result 12
            (if ccs811_sensor_available s && ccs_data_ready i
             then i16 (ccs_co2 i) else 0) s)).
Proof.
  unfold readCCS811Data.
  destruct (ccs811_sensor_available s), (ccs_data_ready i); reflexivity.
Qed.

Lemma readRainReedData_assigns (i : inputs) (s : state) :
  readRainReedData i s
  = set_result 5
      (i16 (if tip_counted i s then u16 (accumulated_rain_tips s + 1)
            else accumulated_rain_tips s))
      (set_rain false
         (if firstLoop s || edge_validated i s then reed_level i
          else lastState s)
         (if edge_validated i s then reed_millis_set i else lastChanged s)
         (if tip_counted i s then u16 (accumulated_rain_tips s + 1)
          else accumulated_rain_tips s)
         (tip_counted i s || rain_data_pending s) s).
Proof.
  unfold readRainReedData, tip_counted, edge_validated.
  destruct s as [bme mlx light ccs radio counter wind first last changed
                 acc pending res number duration succ fail stamp pin].
  destruct first, (reed_level i), last; project;
    destruct (250 <? u32 (reed_millis i - changed)); reflexivity.
Qed.

Lemma before_transmit_results (i : inputs) (s : state) :
  length (results s) = 16%nat ->
  results (before_transmit i s) = encoded_record i s.
Proof.
  intros Hlen. unfold encoded_record, before_transmit.
  unfold readAnemometerData, readRainDropData.
  rewrite readRainReedData_assigns, readCCS811Data_assigns,
    readTSL2591Data_assigns, readMLX90614Data_assigns, readBME280Data_assigns.
  unfold tip_counted, edge_validated.
  project.
  destruct (results s) as [|r0 [|r1 [|r2 [|r3 [|r4 [|r5 [|r6 [|r7 [|r8 [|r9
    [|r10 [|r11 [|r12 [|r13 [|r14 [|r15 [|r16 rest]]]]]]]]]]]]]]]]];
    try discriminate Hlen.
  reflexivity.
Qed.

Lemma before_transmit_globals (i : inputs) (s : state) :
  packetNumber (before_transmit i s) = packetNumber s
  /\ radio_available (before_transmit i s) = radio_available s
  /\ successfulTransmissions (before_transmit i s) = successfulTransmissions s
  /\ failedTransmissions (before_transmit i s) = failedTransmissions s
  /\ accumulated_rain_tips (before_transmit i s)
     = (if tip_counted i s then u16 (accumulated_rain_tips s + 1)
        else accumulated_rain_tips s)
  /\ rain_data_pending (before_transmit i s)
     = tip_counted i s || rain_data_pending s.
Proof.
  unfold before_transmit, readAnemometerData, readRainDropData.
  rewrite readRainReedData_assigns, readCCS811Data_assigns,
    readTSL2591Data_assigns, readMLX90614Data_assigns, readBME280Data_assigns.
  unfold tip_counted, edge_validated. project. repeat split.
Qed.

Lemma transmitData_results (i : inputs) (s : state) :
  results (transmitData i s) = results s.
Proof.
  unfold transmitData.
  destruct (radio_available s), (radio_write i); project;
    try destruct (rain_data_pending s); reflexivity.
Qed.

Lemma transmitData_radio (i : inputs) (s : state) :
  radio_available (transmitData i s) = radio_available s.
Proof.
  unfold transmitData.
  destruct (radio_available s) eqn:Hradio, (radio_write i); project;
    try destruct (rain_data_pending s); project; auto.
Qed.

Lemma transmitData_packetNumber (i : inputs) (s : state) :
  packetNumber (transmitData i s)
  = if radio_available s then u16 (packetNumber s + 1) else packetNumber s.
Proof.
  unfold transmitData.
  destruct (radio_available s), (radio_write i); project;
    try destruct (rain_data_pending s); reflexivity.
Qed.

Lemma transmitData_failure (i : inputs) (s : state) :
  radio_available s = true ->
  radio_write i = false ->
  accumulated_rain_tips (transmitData i s) = accumulated_rain_tips s
  /\ rain_data_pending (transmitData i s) = rain_data_pending s
  /\ failedTransmissions (transmitData i s) = u16 (failedTransmissions s + 1)
  /\ successfulTransmissions (transmitData i s) = successfulTransmissions s.
Proof.
  intros Hradio Hfail. unfold transmitData. rewrite Hradio, Hfail.
  repeat split.
Qed.

Lemma transmitData_success (i : inputs) (s : state) :
  radio_available s = true ->
  radio_write i = true ->
  accumulated_rain_tips (transmitData i s)
  = (if rain_data_pending s then 0 else accumulated_rain_tips s)
  /\ rain_data_pending (transmitData i s) = false
  /\ successfulTransmissions (transmitData i s)
     = u16 (successfulTransmissions s + 1)
  /\ failedTransmissions (transmitData i s) = failedTransmissions s.
Proof.
  intros Hradio Hok. unfold transmitData. rewrite Hradio, Hok. project.
  destruct (rain_data_pending s) eqn:Hpending; project; repeat split.
  exact Hpending.
Qed.

Lemma checkAutoReset_keeps (i : inputs) (s : state) :
  results (checkAutoReset i s) = results s
  /\ packetNumber (checkAutoReset i s) = packetNumber s
  /\ accumulated_rain_tips (checkAutoReset i s) = accumulated_rain_tips s
  /\ rain_data_pending (checkAutoReset i s) = rain_data_pending s
  /\ radio_available (checkAutoReset i s) = radio_available s.
Proof.
  unfold checkAutoReset.
  destruct (RESET_INTERVAL <? reset_millis i); repeat split.
Qed.

Lemma u16_range (z : Z) : 0 <= u16 z < 65536.
Proof. unfold u16. apply Z.mod_pos_bound. lia. Qed.

Lemma i16_range (z : Z) : in_int16 (i16 z).
Proof.
  unfold in_int16, i16.
  pose proof (Z.mod_pos_bound (z + 32768) 65536). lia.
Qed.

Lemma float_to_int16_range (f : float) : in_int16 (float_to_int16 f).
Proof.
  unfold float_to_int16. destruct (fval f) as [q|]; [|apply i16_range].
  destruct ((-32768 <=? Qtrunc q) && (Qtrunc q <=? 32767)) eqn:Hfits;
    [|apply i16_range].
  apply andb_true_iff in Hfits as [Hlow Hhigh].
  apply Z.leb_le in Hlow. apply Z.leb_le in Hhigh. split; assumption.
Qed.

Lemma float_to_int16_truncates (f : float) (q : Q) :
  fval f = Some q -> in_int16 (Qtrunc q) -> float_to_int16 f = Qtrunc q.
Proof.
  intros Hval [Hlow Hhigh]. unfold float_to_int16. rewrite Hval.
  apply Z.leb_le in Hlow. apply Z.leb_le in Hhigh.
  rewrite Hlow, Hhigh. reflexivity.
Qed.

Lemma encoded_record_range (i : inputs) (s : state) :
  Forall in_int16 (encoded_record i s).
Proof.
  assert (Hzero : in_int16 0) by (unfold in_int16; lia).
  unfold encoded_record.
  repeat (apply Forall_cons; split);
    repeat match goal with
      | |- in_int16 (if ?b then _ else _) => destruct b
      end;
    auto using i16_range, float_to_int16_range.
Qed.

Lemma record_bytes_length (r : list Z) :
  length (record_bytes r) = (2 * length r)%nat.
Proof.
  unfold record_bytes. induction r as [|z r IH]; [reflexivity|].
  cbn [map concat]. rewrite length_app, IH. cbn [int16_bytes length]. lia.
Qed.

Lemma loop_well_formed (i : inputs) (s : state) :
  well_formed s -> well_formed (loop i s).
Proof.
  intros (Hlen & Hrange & Hpending).
  destruct (before_transmit_globals i s) as (_ & _ & _ & _ & Htips & Hpend).
  assert (Hbt : well_formed (before_transmit i s)).
  { split; [|split].
    - rewrite before_transmit_results by exact Hlen. reflexivity.
    - rewrite Htips. destruct (tip_counted i s); [apply u16_range | exact Hrange].
    - rewrite Htips, Hpend. intros Hnone.
      apply orb_false_iff in Hnone as [Hnotip Hnopending].
      rewrite Hnotip. auto. }
  clear Htips Hpend. destruct Hbt as (Hlen' & Hrange' & Hpending').
  unfold loop.
  destruct (checkAutoReset_keeps i (transmitData i (before_transmit i s)))
    as (Hres & _ & Htips & Hpend & _).
  unfold well_formed. rewrite Hres, Htips, Hpend, transmitData_results.
  split; [exact Hlen'|].
  destruct (radio_available (before_transmit i s)) eqn:Hradio.
  - destruct (radio_write i) eqn:Hok.
    + destruct (transmitData_success i _ Hradio Hok) as (Hacc & Hflag & _).
      rewrite Hacc, Hflag.
      destruct (rain_data_pending (before_transmit i s));
        [split; [lia | reflexivity] | auto].
    + destruct (transmitData_failure i _ Hradio Hok) as (Hacc & Hflag & _).
      rewrite Hacc, Hflag. auto.
  - assert (Hskip : transmitData i (before_transmit i s) = before_transmit i s)
      by (unfold transmitData; rewrite Hradio; reflexivity).
    rewrite Hskip. auto.
Qed.

Lemma init_well_formed (bme mlx light radio : bool) :
  well_formed (init bme mlx light radio).
Proof. unfold well_formed. cbn. repeat split; lia. Qed.

Lemma reads_keep_packetNumber (i : inputs) (s : state) :
  packetNumber (readBME280Data i s) = packetNumber s
  /\ packetNumber (readMLX90614Data i s) = packetNumber s
  /\ packetNumber (readTSL2591Data i s) = packetNumber s
  /\ packetNumber (readCCS811Data i s) = packetNumber s
  /\ packetNumber (readRainReedData i s) = packetNumber s
  /\ packetNumber (readRainDropData i s) = packetNumber s
  /\ packetNumber (readAnemometerData i s) = packetNumber s.
Proof.
  rewrite readRainReedData_assigns, readCCS811Data_assigns,
    readTSL2591Data_assigns, readMLX90614Data_assigns, readBME280Data_assigns.
  repeat split.
Qed.

(** C2. transmitData, when the radio is there (an attempt is made),
    leaves packetNumber at the old value plus 1 modulo 65536 whatever
    radio.write returned; it does not touch it when no attempt is made;
    no function that reads a sensor and not checkAutoReset changes it; so
    one pass of loop() increments it exactly once per attempt, and 65535 is
    followed by 0. *)
Theorem C2_sequence_counter (i : inputs) (s : state) :
  packetNumber (transmitData i s)
  = (if radio_available s then u16 (packetNumber s + 1) else packetNumber s)
  /\ (packetNumber (readBME280Data i s) = packetNumber s
      /\ packetNumber (readMLX90614Data i s) = packetNumber s
      /\ packetNumber (readTSL2591Data i s) = packetNumber s
      /\ packetNumber (readCCS811Data i s) = packetNumber s
      /\ packetNumber (readRainReedData i s) = packetNumber s
      /\ packetNumber (readRainDropData i s) = packetNumber s
      /\ packetNumber (readAnemometerData i s) = packetNumber s)
  /\ packetNumber (before_transmit i s) = packetNumber s
  /\ packetNumber (checkAutoReset i s) = packetNumber s
  /\ packetNumber (loop i s)
     = (if radio_available s then u16 (packetNumber s + 1) else packetNumber s)
  /\ u16 (65535 + 1) = 0.
Proof.
  destruct (before_transmit_globals i s) as (Hnumber & Hradio & _).
  split; [apply transmitData_packetNumber|].
  split; [apply reads_keep_packetNumber|].
  split; [exact Hnumber|].
  split; [apply checkAutoReset_keeps|].
  split; [|reflexivity].
  unfold loop.
  destruct (checkAutoReset_keeps i (transmitData i (before_transmit i s)))
    as (_ & Hkeep & _).
  rewrite Hkeep, transmitData_packetNumber, Hradio, Hnumber. reflexivity.
Qed.

(** C3. For an attempt (the radio is there): when radio.write fails the
    tip count and its pending flag are unchanged and failedTransmissions is
    incremented; when it succeeds the tip count is 0 afterwards and
    successfulTransmissions is incremented (both counters are uint16_t).
    Hence, over a pass that fails followed by a pass that succeeds, field 5
    of the record handed to the radio in the second pass is the count at
    the start plus the tips of both passes (a uint16_t, stored as int16_t),
    and the count is 0 after it. *)
Theorem C3_rain_tips_survive_failure (i1 i2 : inputs) (s : state) :
  radio_available s = true ->
  well_formed s ->
  radio_write i1 = false ->
  radio_write i2 = true ->
  (accumulated_rain_tips (transmitData i1 s) = accumulated_rain_tips s
   /\ rain_data_pending (transmitData i1 s) = rain_data_pending s
   /\ failedTransmissions (transmitData i1 s) = u16 (failedTransmissions s + 1)
   /\ successfulTransmissions (transmitData i1 s) = successfulTransmissions s)
  /\ (accumulated_rain_tips (transmitData i2 s) = 0
      /\ rain_data_pending (transmitData i2 s) = false
      /\ successfulTransmissions (transmitData i2 s)
         = u16 (successfulTransmissions s + 1)
      /\ failedTransmissions (transmitData i2 s) = failedTransmissions s)
  /\ (transmitted i2 (loop i1 s)
      = Some (record_bytes (results (before_transmit i2 (loop i1 s))))
      /\ results (before_transmit i2 (loop i1 s)) !! 5%nat
         = Some (i16 (u16 (accumulated_rain_tips s + tips i1 s
                           + tips i2 (loop i1 s))))
      /\ accumulated_rain_tips (loop i2 (loop i1 s)) = 0).
Proof.
  intros Hradio Hwf Hfail Hok.
  pose proof Hwf as (Hlen & Hrange & Hpending).
  split; [apply transmitData_failure; assumption|].
  split.
  { destruct (transmitData_success i2 s Hradio Hok) as (Hacc & Hrest).
    split; [|exact Hrest].
    rewrite Hacc. destruct (rain_data_pending s); auto. }
  (* the first pass *)
  destruct (before_transmit_globals i1 s) as (_ & Hradio1 & _ & _ & Htips1 & _).
  rewrite Hradio in Hradio1.
  destruct (transmitData_failure i1 _ Hradio1 Hfail) as (Hkeep1 & _).
  destruct (checkAutoReset_keeps i1 (transmitData i1 (before_transmit i1 s)))
    as (_ & _ & Hacc1 & _ & Hrad1).
  assert (Hafter1 : accumulated_rain_tips (loop i1 s)
                    = u16 (accumulated_rain_tips s + tips i1 s)).
  { unfold loop. rewrite Hacc1, Hkeep1, Htips1. unfold tips.
    destruct (tip_counted i1 s); [reflexivity|].
    rewrite Z.add_0_r. unfold u16. symmetry. apply Z.mod_small. exact Hrange. }
  assert (Hradio' : radio_available (loop i1 s) = true).
  { unfold loop. rewrite Hrad1, transmitData_radio. exact Hradio1. }
  pose proof (loop_well_formed i1 s Hwf) as Hwf1.
  pose proof Hwf1 as (Hlen1 & Hrange1 & _).
  (* the second pass *)
  split; [unfold transmitted; rewrite Hradio'; reflexivity|].
  split.
  - rewrite before_transmit_results by exact Hlen1.
    unfold encoded_record. cbn [lookup list_lookup]. do 2 f_equal.
    rewrite Hafter1. unfold tips.
    destruct (tip_counted i2 (loop i1 s)).
    + unfold u16. rewrite Zplus_mod_idemp_l. reflexivity.
    + rewrite Z.add_0_r. reflexivity.
  - destruct (before_transmit_globals i2 (loop i1 s))
      as (_ & Hradio2 & _ & _ & Htips2 & Hpend2).
    rewrite Hradio' in Hradio2.
    destruct (transmitData_success i2 _ Hradio2 Hok) as (Hacc2 & _).
    destruct (checkAutoReset_keeps i2
                (transmitData i2 (before_transmit i2 (loop i1 s))))
      as (_ & _ & Hkeep2 & _).
    unfold loop at 1. rewrite Hkeep2, Hacc2, Hpend2, Htips2.
    destruct Hwf1 as (_ & _ & Hinv1).
    destruct (tip_counted i2 (loop i1 s)); [reflexivity|].
    destruct (rain_data_pending (loop i1 s)); [reflexivity|].
    (* nothing pending before the send: the count was already 0 *)
    cbn [orb]. auto.
Qed.

(** C4, as the code behaves. With the sixteen slots in place, the record
    handed to the radio has exactly 16 fields (32 bytes), each within the
    int16_t range; they are the values of encoded_record: the illuminance
    field is min(lux, 65535) kept as a 16-bit pattern, which is lux itself
    up to 32767; a float field is the scaled reading truncated toward zero
    when that fits 16 bits, and nothing is clamped. *)
Theorem C4_encoder_fields (i : inputs) (s : state) :
  length (results s) = 16%nat ->
  results (before_transmit i s) = encoded_record i s
  /\ length (results (before_transmit i s)) = 16%nat
  /\ length (record_bytes (results (before_transmit i s))) = 32%nat
  /\ Forall in_int16 (results (before_transmit i s))
  /\ (0 <= lux_raw i <= 32767 -> i16 (Z.min (lux_raw i) 65535) = lux_raw i)
  /\ (forall (f : float) (q : Q),
        fval f = Some q -> in_int16 (Qtrunc q) ->
        float_to_int16 f = Qtrunc q).
Proof.
  intros Hlen. rewrite record_bytes_length.
  rewrite (before_transmit_results i s Hlen).
  split; [reflexivity|]. split; [reflexivity|]. split; [reflexivity|].
  split; [apply encoded_record_range|].
  split; [|exact float_to_int16_truncates].
  intros Hlux. rewrite Z.min_l by lia.
  unfold i16. rewrite Z.mod_small by lia. lia.
Qed.

(** C5, as the code behaves. A sample of the reed pin that differs from
    lastState less than 251 ms after lastChanged changes nothing: no tip is
    counted, the count and its pending flag keep their values, and so do
    lastState (it is not set to the level read) and lastChanged. Of two
    successive samples that each differ from the level before, the first
    one let through, the second is let through exactly when it comes more
    than 250 ms after the first. *)
Theorem C5_debounce_window (i : inputs) (s : state) :
  firstLoop s = false ->
  reed_level i <> lastState s ->
  u32 (reed_millis i - lastChanged s) <= 250 ->
  accumulated_rain_tips (readRainReedData i s) = accumulated_rain_tips s
  /\ rain_data_pending (readRainReedData i s) = rain_data_pending s
  /\ lastState (readRainReedData i s) = lastState s
  /\ lastChanged (readRainReedData i s) = lastChanged s
  /\ tips i s = 0
  /\ edge_validated i s = false
  /\ (forall (i1 i2 : inputs) (s0 : state),
        edge_validated i1 s0 = true ->
        reed_level i2 <> reed_level i1 ->
        registered_edges [i1; i2] s0
        = if 250 <? u32 (reed_millis i2 - reed_millis_set i1)
          then 2%nat else 1%nat).
Proof.
  intros Hfirst Hdiffers Hwindow.
  assert (Hedge : edge_validated i s = false).
  { unfold edge_validated.
    assert (Hlate : (250 <? u32 (reed_millis i - lastChanged s)) = false)
      by (apply Z.ltb_ge; exact Hwindow).
    rewrite Hlate. apply andb_false_r. }
  assert (Htip : tip_counted i s = false)
    by (unfold tip_counted; rewrite Hedge; reflexivity).
  rewrite readRainReedData_assigns. project.
  rewrite Hedge, Htip, Hfirst. unfold tips. rewrite Htip.
  repeat (split; [reflexivity|]).
  intros i1 i2 s0 Hfirst_edge Hsecond.
  cbn [registered_edges]. rewrite Hfirst_edge.
  rewrite readRainReedData_assigns. unfold edge_validated at 1. project.
  rewrite Hfirst_edge, orb_true_r.
  assert (Hne : Bool.eqb (reed_level i2) (reed_level i1) = false)
    by (apply eqb_false_iff; exact Hsecond).
  rewrite Hne. cbn [negb andb].
  destruct (250 <? u32 (reed_millis i2 - reed_millis_set i1)); reflexivity.
Qed.

End SenderFacts.

(** *** The sender run on concrete readings *)

Lemma C3_rain_tips_survive_failure_witness :
  Sender.accumulated_rain_tips one_tip_pending = 1
  /\ Sender.results
       (Sender.before_transmit (pass false 5000 true)
          (Sender.loop (pass true 4000 false) one_tip_pending)) !! 5%nat
     = Some 2
  /\ Sender.accumulated_rain_tips
       (Sender.loop (pass false 5000 true)
          (Sender.loop (pass true 4000 false) one_tip_pending)) = 0.
Proof.
  destruct (C3_rain_tips_survive_failure
              (pass true 4000 false) (pass false 5000 true) one_tip_pending)
    as (_ & _ & _ & Hfield & Hcleared).
  - vm_compute. reflexivity.
  - unfold Sender.well_formed. vm_compute.
    split; [reflexivity|]. split; [split; [discriminate|reflexivity]|].
    discriminate.
  - vm_compute. reflexivity.
  - vm_compute. reflexivity.
  - split; [vm_compute; reflexivity|]. split; [|exact Hcleared].
    rewrite Hfield. vm_compute. reflexivity.
Defined.

(** C4, counterexample: an illuminance of 40000 lux is sent as -25536,
    where round(40000 * 1) clamped to the int16 range is 32767; and a
    temperature of 23.4375 is sent as 2343, where round(2343.75) is 2344. *)
Lemma C4_fields_not_rounded_and_clamped :
  Sender.results
    (Sender.before_transmit (bright_pass (375 # 16) 40000) sender_start)
    !! 4%nat = Some (-25536)
  /\ spec_encode_field (inject_Z 40000) 1 = 32767
  /\ Sender.results
       (Sender.before_transmit (bright_pass (375 # 16) 40000) sender_start)
       !! 1%nat = Some 2343
  /\ spec_encode_field (375 # 16) 100 = 2344.
Proof. vm_compute. repeat split. Qed.

Lemma C4_encoder_fields_witness :
  Sender.results
    (Sender.before_transmit (bright_pass (375 # 16) 40000) sender_start)
  = [1; 2343; 0; 0; -25536; 0; 0; 0; 0; 0; 0; 0; 0; 0; 0; 0]
  /\ Forall in_int16
       (Sender.results
          (Sender.before_transmit (bright_pass (375 # 16) 40000) sender_start)).
Proof.
  destruct (C4_encoder_fields (bright_pass (375 # 16) 40000) sender_start)
    as (Hfields & _ & _ & Hrange & _).
  - vm_compute. reflexivity.
  - split; [rewrite Hfields; vm_compute; reflexivity | exact Hrange].
Defined.

(** C5, counterexample: the pin is sampled LOW at 100 ms, then HIGH at
    200 ms, within the window after lastChanged = 0; lastState is still
    LOW after the second sample. *)
Lemma C5_lastState_kept_in_window :
  Sender.firstLoop (Sender.readRainReedData (pass false 100 true) sender_start)
  = false
  /\ Sender.lastState
       (Sender.readRainReedData (pass false 100 true) sender_start) = false
  /\ u32 (200 - Sender.lastChanged
                  (Sender.readRainReedData (pass false 100 true) sender_start))
     <= 250
  /\ Sender.reed_level (pass true 200 true) = true
  /\ Sender.lastState
       (Sender.readRainReedData (pass true 200 true)
          (Sender.readRainReedData (pass false 100 true) sender_start))
     <> Sender.reed_level (pass true 200 true).
Proof. vm_compute. repeat split; discriminate. Qed.

Lemma C5_debounce_window_witness :
  Sender.lastState
    (Sender.readRainReedData (pass true 200 true)
       (Sender.readRainReedData (pass false 100 true) sender_start)) = false
  /\ Sender.registered_edges
       [pass true 1000 true; pass false 1200 true]
       (Sender.readRainReedData (pass false 100 true) sender_start) = 1%nat
  /\ Sender.registered_edges
       [pass true 1000 true; pass false 1300 true]
       (Sender.readRainReedData (pass false 100 true) sender_start) = 2%nat.
Proof.
  destruct (C5_debounce_window (pass true 200 true)
              (Sender.readRainReedData (pass false 100 true) sender_start))
    as (_ & _ & Hlast & _ & _ & _ & Htwo).
  - vm_compute. reflexivity.
  - vm_compute. discriminate.
  - vm_compute. discriminate.
  - split; [rewrite Hlast; vm_compute; reflexivity|].
    split; rewrite Htwo; try (vm_compute; reflexivity);
      vm_compute; discriminate.
Defined.

(** * Sender and receiver together *)

Lemma byte_val_of_Z (z : Z) : byte_val (byte_of_Z z) = z mod 256.
Proof.
  unfold byte_val, byte_of_Z.
  pose proof (Z.mod_pos_bound z 256 ltac:(lia)) as Hrange.
  destruct (Byte.of_N (Z.to_N (z mod 256))) as [b|] eqn:Hbyte.
  - apply Byte.to_of_N in Hbyte. rewrite Hbyte. lia.
  - apply Byte.of_N_None_iff in Hbyte. lia.
Qed.

(** A field written by the sender is read back unchanged from the bytes. *)
Lemma int16_at_record_bytes (r : list Z) (k : nat) (z : Z) :
  r !! k = Some z -> in_int16 z -> int16_at (record_bytes r) k = z.
Proof.
  revert k. induction r as [|a r IH]; intros k Hk Hz; [discriminate Hk|].
  destruct k as [|k].
  - injection Hk as ->. unfold int16_at, record_bytes.
    cbn [map concat int16_bytes app nth Nat.mul Nat.add].
    rewrite !byte_val_of_Z. unfold in_int16 in Hz. unfold i16, u16.
    pose proof (Z.mod_pos_bound z 65536 ltac:(lia)) as Hu.
    rewrite (Z.mod_small (z mod 65536 / 256)) by
      (split; [apply Z.div_pos; lia | apply Z.div_lt_upper_bound; lia]).
    replace (z mod 65536 mod 256 + 256 * (z mod 65536 / 256))
      with (z mod 65536) by (rewrite (Z.div_mod (z mod 65536) 256) at 1; lia).
    rewrite Zplus_mod_idemp_l. rewrite Z.mod_small by lia. lia.
  - cbn [lookup list_lookup] in Hk. specialize (IH k Hk Hz).
    unfold int16_at, record_bytes in *.
    cbn [map concat int16_bytes app].
    replace (2 * S k)%nat with (S (S (2 * k))) by lia.
    replace (S (S (2 * k)) + 1)%nat with (S (S (2 * k + 1))) by lia.
    cbn [nth]. exact IH.
Qed.

(** The receiver finds the sender's packetNumber in field 7. *)
Lemma packet_number_of_sender `{FM : FloatModel}
    (i : Sender.inputs) (s : Sender.state) :
  length (Sender.results s) = 16%nat ->
  Receiver.packet_number (record_bytes (Sender.results (Sender.before_transmit i s)))
  = u16 (Sender.packetNumber s).
Proof.
  intros Hlen. unfold Receiver.packet_number.
  rewrite (int16_at_record_bytes _ 7 (i16 (Sender.packetNumber s))).
  - unfold u16, i16.
    rewrite Zminus_mod_idemp_l. f_equal. lia.
  - rewrite before_transmit_results by exact Hlen. reflexivity.
  - apply i16_range.
Qed.

(** Packets 0 to 6 are sent, packet 7 fails with a tip counted, packet 8
    is sent: the receiver counts one lost packet, and the tip of the failed
    pass arrives with packet 8. *)
Example seven_sent_one_failed :
  let passes := [pass false 1000 true; pass false 2000 true;
                 pass false 3000 true; pass false 4000 true;
                 pass false 5000 true; pass false 6000 true;
                 pass false 7000 true; pass true 8000 false;
                 pass true 9000 true] in
  let receiver := fst (Receiver.run (on_air passes sender_start) Receiver.init) in
  Receiver.receivedPackets receiver = 8
  /\ Receiver.lostPackets receiver = 1
  /\ Receiver.lastPacketNumber receiver = 8
  /\ int16_at (Receiver.results receiver) 5 = 1.
Proof. vm_compute. repeat split. Qed.

(** The same with packet 3 failing: packet 4 is at most 5, the receiver
    takes it for a restart of the sender and counts no loss. *)
Example three_sent_one_failed :
  let passes := [pass false 1000 true; pass false 2000 true;
                 pass false 3000 true; pass true 4000 false;
                 pass true 5000 true] in
  let receiver := fst (Receiver.run (on_air passes sender_start) Receiver.init) in
  Receiver.receivedPackets receiver = 4
  /\ Receiver.lostPackets receiver = 0
  /\ Receiver.lastPacketNumber receiver = 4
  /\ int16_at (Receiver.results receiver) 5 = 1.
Proof. vm_compute. repeat split. Qed.

(** * Further properties of the receiver *)

Section ReceiverStreams.
Import Receiver.

Ltac solve_u16 :=
  unfold u16, i16 in *; Z.to_euclidean_division_equations; lia.

Lemma track_lost_cases (cur now : Z) (s : state) :
  lostPackets (track cur now s)
  = if isSynced s && (u32 (now - lastPacketMs s) <=? 5000)
       && negb (isNextModulo cur (lastPacketNumber s)) && (5 <? cur)
    then u16 (lostPackets s + u16 (cur - u16 (lastPacketNumber s + 1)))
    else lostPackets s.
Proof.
  unfold track. cbv zeta.
  rewrite (Z.leb_antisym 5000 (u32 (now - lastPacketMs s))),
    (Z.leb_antisym 5 cur).
  destruct (isSynced s), (5000 <? u32 (now - lastPacketMs s)),
    (isNextModulo cur (lastPacketNumber s)), (5 <? cur); reflexivity.
Qed.

Lemma counted_arrival_keeps_sum (payload : list byte) (now : Z) (s : state) :
  counted_arrival payload now s = true ->
  u16 (receivedPackets (fst (loop (Some (payload, now)) s))
       + lostPackets (fst (loop (Some (payload, now)) s))
       - lastPacketNumber (fst (loop (Some (payload, now)) s)))
  = u16 (receivedPackets s + lostPackets s - lastPacketNumber s).
Proof.
  unfold counted_arrival. intros Hcounted.
  apply andb_true_iff in Hcounted as [Hbranch Hkind].
  rewrite loop_arrival_state. cbn [receivedPackets lostPackets lastPacketNumber].
  rewrite track_lost_cases, Hbranch. cbn [andb].
  destruct (isNextModulo (packet_number payload) (lastPacketNumber s)) eqn:Hnext.
  - cbn [negb andb]. unfold isNextModulo in Hnext. apply Z.eqb_eq in Hnext.
    rewrite Hnext. solve_u16.
  - cbn [orb] in Hkind. rewrite Hkind. cbn [negb andb]. solve_u16.
Qed.

(** X1. Over passes of loop() whose arrivals are all handled in the SYNCED
    branch and are each either the next number or a number above 5,
    receivedPackets + lostPackets - lastPacketNumber keeps its value modulo
    65536: received and lost together advance exactly as the sender's
    sequence number does. *)
Theorem X1_loss_accounting (arrivals : list (option (list byte * Z))) (s : state) :
  steady arrivals s = true ->
  u16 (receivedPackets (fst (run arrivals s))
       + lostPackets (fst (run arrivals s))
       - lastPacketNumber (fst (run arrivals s)))
  = u16 (receivedPackets s + lostPackets s - lastPacketNumber s).
Proof.
  revert s. induction arrivals as [|a later IH]; intros s Hsteady.
  - reflexivity.
  - cbn [steady] in Hsteady. apply andb_true_iff in Hsteady as [Hfirst Hlater].
    specialize (IH _ Hlater).
    cbn [run]. destruct (loop a s) as [s1 out1] eqn:Hloop.
    cbn [fst] in IH. destruct (run later s1) as [s2 out2]. cbn [fst] in *.
    rewrite IH.
    destruct a as [[payload now]|].
    + pose proof (counted_arrival_keeps_sum payload now s Hfirst) as Hstep.
      rewrite Hloop in Hstep. exact Hstep.
    + assert (Hs1 : s1 = fst (loop None s)) by (rewrite Hloop; reflexivity).
      rewrite Hs1, loop_idle_state. reflexivity.
Qed.

Lemma X1_loss_accounting_witness :
  u16 (receivedPackets
         (fst (run [Some (record_with_sequence 11, 2000); None;
                    Some (record_with_sequence 60, 3000)] (synced_at 10 0 1000)))
       + lostPackets
           (fst (run [Some (record_with_sequence 11, 2000); None;
                      Some (record_with_sequence 60, 3000)] (synced_at 10 0 1000)))
       - lastPacketNumber
           (fst (run [Some (record_with_sequence 11, 2000); None;
                      Some (record_with_sequence 60, 3000)] (synced_at 10 0 1000))))
  = u16 (1 + 0 - 10).
Proof.
  apply (X1_loss_accounting
           [Some (record_with_sequence 11, 2000); None;
            Some (record_with_sequence 60, 3000)] (synced_at 10 0 1000)).
  vm_compute. reflexivity.
Defined.

(** X2. The loss counter changes in a pass only if a record arrived while
    the receiver was synced, within 5000 ms of the previous one, with a
    number that is not the next one and is above 5. *)
Theorem X2_loss_changes_only_on_gap (payload : list byte) (nowMs : Z) (s : state) :
  lostPackets (fst (loop (Some (payload, nowMs)) s)) <> lostPackets s ->
  isSynced s = true
  /\ u32 (nowMs - lastPacketMs s) <= 5000
  /\ isNextModulo (packet_number payload) (lastPacketNumber s) = false
  /\ 5 < packet_number payload.
Proof.
  rewrite loop_arrival_state. cbn [lostPackets].
  rewrite track_lost_cases. intros Hchanged.
  destruct (isSynced s); [|contradiction].
  destruct (u32 (nowMs - lastPacketMs s) <=? 5000) eqn:Hgap; [|contradiction].
  destruct (isNextModulo (packet_number payload) (lastPacketNumber s));
    [contradiction|].
  destruct (5 <? packet_number payload) eqn:Hbig; [|contradiction].
  apply Z.leb_le in Hgap. apply Z.ltb_lt in Hbig. auto.
Qed.

Lemma X2_loss_changes_only_on_gap_witness :
  5 < packet_number (record_with_sequence 60)
  /\ isNextModulo (packet_number (record_with_sequence 60)) 10 = false.
Proof.
  destruct (X2_loss_changes_only_on_gap (record_with_sequence 60) 2000
              (synced_at 10 7 1000)) as (_ & _ & Hnext & Hbig).
  - vm_compute. discriminate.
  - split; [exact Hbig | exact Hnext].
Defined.

(** X3. A record that repeats the previous sequence number (above 5),
    handled in the SYNCED branch, adds 65535 to the 16-bit loss counter:
    the counter goes down by one, or from 0 to 65535. *)
Theorem X3_repeated_number_counts_65535 (payload : list byte) (nowMs : Z) (s : state) :
  isSynced s = true ->
  u32 (nowMs - lastPacketMs s) <= 5000 ->
  packet_number payload = lastPacketNumber s ->
  5 < packet_number payload ->
  lostPackets (fst (loop (Some (payload, nowMs)) s))
  = u16 (lostPackets s + 65535)
  /\ (lostPackets s = 0 ->
      lostPackets (fst (loop (Some (payload, nowMs)) s)) = 65535).
Proof.
  intros Hsync Hgap Hsame Hbig.
  rewrite loop_arrival_state. cbn [lostPackets].
  rewrite track_lost_cases, Hsync.
  apply Z.leb_le in Hgap. rewrite Hgap.
  pose proof Hbig as Hbig'. apply Z.ltb_lt in Hbig'. rewrite Hbig'.
  assert (Hrange : 0 <= packet_number payload < 65536)
    by (unfold packet_number, u16; apply Z.mod_pos_bound; lia).
  assert (Hnot : isNextModulo (packet_number payload) (lastPacketNumber s) = false).
  { unfold isNextModulo. apply Z.eqb_neq. rewrite <- Hsame. solve_u16. }
  rewrite Hnot. cbn [andb negb]. rewrite <- Hsame.
  split; [solve_u16 | intros Hzero; rewrite Hzero; solve_u16].
Qed.

Lemma X3_repeated_number_counts_65535_witness :
  lostPackets
    (fst (loop (Some (record_with_sequence 10, 2000)) (synced_at 10 0 1000)))
  = 65535.
Proof.
  destruct (X3_repeated_number_counts_65535 (record_with_sequence 10) 2000
              (synced_at 10 0 1000)) as (_ & Hzero).
  - reflexivity.
  - vm_compute. discriminate.
  - reflexivity.
  - reflexivity.
  - apply Hzero. reflexivity.
Defined.

(** X4. receivedPackets counts the records that arrived, modulo 65536;
    passes without a record do not change it. *)
Theorem X4_received_counts_arrivals (arrivals : list (option (list byte * Z)))
    (s : state) :
  receivedPackets (fst (run arrivals s))
  = (if existsb arrived arrivals
     then u16 (receivedPackets s
               + Z.of_nat (length (filter (fun a => arrived a = true) arrivals)))
     else receivedPackets s).
Proof.
  revert s. induction arrivals as [|a later IH]; intros s; [reflexivity|].
  cbn [run]. destruct (loop a s) as [s1 out1] eqn:Hloop.
  specialize (IH s1). destruct (run later s1) as [s2 out2]. cbn [fst] in *.
  rewrite IH. clear IH.
  destruct a as [[payload now]|].
  - assert (Hs1 : receivedPackets s1 = u16 (receivedPackets s + 1)).
    { replace s1 with (fst (loop (Some (payload, now)) s))
        by (rewrite Hloop; reflexivity).
      rewrite loop_arrival_state. reflexivity. }
    rewrite Hs1. cbn [existsb arrived orb].
    rewrite filter_cons_True by reflexivity. cbn [length].
    rewrite Nat2Z.inj_succ.
    destruct (existsb arrived later) eqn:Hmore.
    + solve_u16.
    + assert (Hnone : filter (fun a => arrived a = true) later = []).
      { clear -Hmore. induction later as [|b later IH]; [reflexivity|].
        cbn [existsb] in Hmore. apply orb_false_iff in Hmore as [Hb Hl].
        rewrite filter_cons_False by (rewrite Hb; discriminate). auto. }
      rewrite Hnone. reflexivity.
  - assert (Hs1 : s1 = fst (loop None s)) by (rewrite Hloop; reflexivity).
    rewrite Hs1, loop_idle_state.
    cbn [existsb arrived orb].
    rewrite filter_cons_False by discriminate. reflexivity.
Qed.

(** X5. While receivedPackets is not a positive multiple of 100, passes of
    loop() without a record write nothing and change nothing; so a
    receiver that has not yet received a record is silent. *)
Theorem X5_idle_receiver_silent (n : nat) (s : state) :
  (receivedPackets s mod 100 =? 0) && (0 <? receivedPackets s) = false ->
  run (repeat None n) s = (s, []).
Proof.
  intros Hquiet. induction n as [|n IH]; [reflexivity|].
  cbn [repeat run]. unfold loop at 1. unfold statistics. rewrite Hquiet.
  cbn [app]. rewrite IH. reflexivity.
Qed.

Lemma X5_idle_receiver_silent_witness :
  run (repeat None 5) init = (init, []).
Proof. apply (X5_idle_receiver_silent 5 init). reflexivity. Defined.

Lemma packet_number_record_with_sequence (n : Z) :
  packet_number (record_with_sequence n) = u16 n.
Proof.
  unfold packet_number, record_with_sequence.
  rewrite (int16_at_record_bytes _ 7 (i16 n)).
  - solve_u16.
  - reflexivity.
  - unfold in_int16, i16. Z.to_euclidean_division_equations. lia.
Qed.

Lemma numbered_from_in_order (times : list Z) (first : Z) (s : state) :
  u16 first = u16 (lastPacketNumber s + 1) ->
  lostPackets (fst (run (numbered_from first times) s)) = lostPackets s
  /\ u16 (lastPacketNumber (fst (run (numbered_from first times) s)) + 1)
     = u16 (first + Z.of_nat (length times)).
Proof.
  revert first s. induction times as [|t later IH]; intros first s Hfirst.
  - cbn [numbered_from run fst length]. rewrite Z.add_0_r. auto.
  - cbn [numbered_from run].
    destruct (loop (Some (record_with_sequence first, t)) s) as [s1 out1] eqn:Hloop.
    assert (Hs1 : s1 = fst (loop (Some (record_with_sequence first, t)) s))
      by (rewrite Hloop; reflexivity).
    rewrite loop_arrival_state, packet_number_record_with_sequence in Hs1.
    assert (Hnext : u16 (first + 1) = u16 (lastPacketNumber s1 + 1))
      by (rewrite Hs1; cbn [lastPacketNumber]; solve_u16).
    destruct (IH (first + 1) s1 Hnext) as [Hlost Hbase].
    destruct (run (numbered_from (first + 1) later) s1) as [s2 out2].
    cbn [fst] in *. rewrite Hlost, Hbase. split.
    + rewrite Hs1. cbn [lostPackets]. rewrite track_lost_cases.
      assert (Hin : isNextModulo (u16 first) (lastPacketNumber s) = true)
        by (unfold isNextModulo; apply Z.eqb_eq; exact Hfirst).
      rewrite Hin. cbn [negb]. rewrite andb_false_r. reflexivity.
    + f_equal. cbn [length]. lia.
Qed.

(** X6. Records numbered previous + 1, previous + 2, ... (modulo 65536)
    never change the loss counter, whenever they arrive and whether the
    receiver is synced or not; the baseline ends at the last number. *)
Theorem X6_in_order_stream_no_loss (times : list Z) (s : state) :
  lostPackets
    (fst (run (numbered_from (lastPacketNumber s + 1) times) s))
  = lostPackets s
  /\ u16 (lastPacketNumber
            (fst (run (numbered_from (lastPacketNumber s + 1) times) s)))
     = u16 (lastPacketNumber s + Z.of_nat (length times)).
Proof.
  destruct (numbered_from_in_order times (lastPacketNumber s + 1) s eq_refl)
    as [Hlost Hbase].
  split; [exact Hlost|]. solve_u16.
Qed.

Lemma frame_has_no_statistics (buf : list byte) :
  statistics_lines (frame buf) = 0%nat.
Proof. reflexivity. Qed.

Lemma debug_text_has_no_statistics (cur : Z) (buf : list byte) :
  statistics_lines (debug_text cur buf) = 0%nat.
Proof.
  unfold debug_text.
  destruct ((0 <? int16_at buf 12) || (0 <? int16_at buf 13)); reflexivity.
Qed.

Lemma statistics_lines_app (out1 out2 : list serial_out) :
  statistics_lines (out1 ++ out2)
  = (statistics_lines out1 + statistics_lines out2)%nat.
Proof. unfold statistics_lines. rewrite filter_app, length_app. reflexivity. Qed.

(** X7. The pass of loop() that receives a record writes the statistics
    line once if the new receivedPackets is a positive multiple of 100 and
    not at all otherwise; when the 16-bit count wraps to 0 nothing is
    written. *)
Theorem X7_statistics_in_arrival_pass (payload : list byte) (nowMs : Z) (s : state) :
  statistics_lines (snd (loop (Some (payload, nowMs)) s))
  = (if (u16 (receivedPackets s + 1) mod 100 =? 0)
        && (0 <? u16 (receivedPackets s + 1))
     then 1%nat else 0%nat)
  /\ (u16 (65535 + 1) mod 100 =? 0) && (0 <? u16 (65535 + 1)) = false.
Proof.
  assert (Hlines :
    statistics_lines (snd (loop (Some (payload, nowMs)) s))
    = statistics_lines (statistics (fst (loop (Some (payload, nowMs)) s)))).
  { unfold loop, on_packet. cbn -[frame debug_text statistics track statistics_lines].
    rewrite !statistics_lines_app, frame_has_no_statistics,
      debug_text_has_no_statistics. reflexivity. }
  rewrite Hlines, loop_arrival_state. unfold statistics.
  cbn [receivedPackets].
  split; [|reflexivity].
  destruct ((u16 (receivedPackets s + 1) mod 100 =? 0)
            && (0 <? u16 (receivedPackets s + 1))); reflexivity.
Qed.

End ReceiverStreams.

(** * Further properties of the record on its way *)

Section RecordOnItsWay.
Context `{FM : FloatModel}.

Lemma decode_all (r : list Z) :
  Forall in_int16 r ->
  map (int16_at (record_bytes r)) (seq 0 (length r)) = r.
Proof.
  intros Hrange. apply list_eq. intros k.
  rewrite list_lookup_fmap.
  destruct (decide (k < length r)%nat) as [Hin|Hout].
  - rewrite lookup_seq_lt by exact Hin. cbn [fmap option_fmap option_map Nat.add].
    destruct (lookup_lt_is_Some_2 r k Hin) as [z Hz].
    rewrite Hz. f_equal. apply int16_at_record_bytes; [exact Hz|].
    exact (proj1 (Forall_lookup _ r) Hrange k z Hz).
  - rewrite lookup_seq_ge by lia. rewrite lookup_ge_None_2 by lia. reflexivity.
Qed.

(** X8. Sixteen-bit signed fields survive the byte layout: reading every
    field back from the bytes of a record whose fields are all within the
    int16 range gives the record again, and the bytes are two per field. *)
Theorem X8_record_round_trip (r : list Z) :
  Forall in_int16 r ->
  map (int16_at (record_bytes r)) (seq 0 (length r)) = r
  /\ length (record_bytes r) = (2 * length r)%nat.
Proof.
  intros Hrange. split; [apply decode_all; exact Hrange|].
  apply record_bytes_length.
Qed.

Lemma X8_record_round_trip_witness :
  map (int16_at (record_bytes [-32768; -1; 0; 255; 256; 32767])) (seq 0 6)
  = [-32768; -1; 0; 255; 256; 32767].
Proof.
  apply (X8_record_round_trip [-32768; -1; 0; 255; 256; 32767]).
  repeat constructor; vm_compute; discriminate.
Defined.

(** X9. The sender stores packetNumber in field 7 as an int16_t, negative
    from 32768 on; the receiver, which reads the field as uint16_t, finds
    packetNumber modulo 65536 in the bytes handed to the radio. *)
Theorem X9_receiver_reads_packet_number (i : Sender.inputs) (s : Sender.state) :
  length (Sender.results s) = 16%nat ->
  Sender.results (Sender.before_transmit i s) !! 7%nat
  = Some (i16 (Sender.packetNumber s))
  /\ Receiver.packet_number
       (record_bytes (Sender.results (Sender.before_transmit i s)))
     = u16 (Sender.packetNumber s).
Proof.
  intros Hlen. split; [|apply packet_number_of_sender; exact Hlen].
  rewrite before_transmit_results by exact Hlen. reflexivity.
Qed.

(** X10. With the radio there, what is handed to radio.write is 32 bytes;
    a receiver that reads them keeps them unchanged in results, and the
    sixteen fields read back from them are those the sender encoded. *)
Theorem X10_record_delivered_whole (i : Sender.inputs) (s : Sender.state)
    (nowMs : Z) (r : Receiver.state) :
  length (Sender.results s) = 16%nat ->
  Sender.radio_available s = true ->
  exists payload : list byte,
    Sender.transmitted i s = Some payload
    /\ length payload = 32%nat
    /\ Receiver.results (fst (Receiver.loop (Some (payload, nowMs)) r)) = payload
    /\ map (int16_at payload) (seq 0 16) = Sender.encoded_record i s.
Proof.
  intros Hlen Hradio.
  exists (record_bytes (Sender.results (Sender.before_transmit i s))).
  split; [unfold Sender.transmitted; rewrite Hradio; reflexivity|].
  rewrite loop_arrival_state. cbn [Receiver.results].
  rewrite record_bytes_length, before_transmit_results by exact Hlen.
  split; [reflexivity|]. split; [reflexivity|].
  exact (decode_all _ (encoded_record_range i s)).
Qed.

(** X11. The illuminance is not lost above 32767: with the light sensor
    there, field 4 of the bytes handed to the radio, read as an unsigned
    16-bit number, is min(lux, 65535); likewise the three air-quality
    fields, read as unsigned, are the uint16_t values the CCS811 gave. *)
Theorem X11_unsigned_sources_recoverable (i : Sender.inputs) (s : Sender.state) :
  length (Sender.results s) = 16%nat ->
  0 <= Sender.lux_raw i ->
  (Sender.light_sensor_available s = true ->
   u16 (int16_at (record_bytes (Sender.results (Sender.before_transmit i s))) 4)
   = Z.min (Sender.lux_raw i) 65535)
  /\ (Sender.ccs811_sensor_available s = true ->
      Sender.ccs_data_ready i = true ->
      0 <= Sender.ccs_co2 i < 65536 ->
      0 <= Sender.ccs_tvoc i < 65536 ->
      0 <= Sender.ccs_baseline i < 65536 ->
      u16 (int16_at (record_bytes (Sender.results (Sender.before_transmit i s))) 12)
      = Sender.ccs_co2 i
      /\ u16 (int16_at (record_bytes (Sender.results (Sender.before_transmit i s))) 13)
         = Sender.ccs_tvoc i
      /\ u16 (int16_at (record_bytes (Sender.results (Sender.before_transmit i s))) 14)
         = Sender.ccs_baseline i).
Proof.
  intros Hlen Hlux.
  pose proof (decode_all _ (encoded_record_range i s)) as Hall.
  assert (Hfield : forall k : nat,
    (k < 16)%nat ->
    Some (int16_at (record_bytes (Sender.results (Sender.before_transmit i s))) k)
    = Sender.encoded_record i s !! k).
  { intros k Hk. rewrite before_transmit_results by exact Hlen.
    transitivity
      (map (int16_at (record_bytes (Sender.encoded_record i s)))
           (seq 0 (length (Sender.encoded_record i s))) !! k);
      [|rewrite Hall; reflexivity].
    rewrite list_lookup_fmap. cbn [length Sender.encoded_record].
    rewrite lookup_seq_lt by exact Hk. reflexivity. }
  assert (Hback : forall x, 0 <= x < 65536 -> u16 (i16 x) = x).
  { intros x Hx. unfold u16, i16. Z.to_euclidean_division_equations. lia. }
  split.
  - intros Hlight. pose proof (Hfield 4%nat ltac:(lia)) as H4.
    unfold Sender.encoded_record in H4. cbn [lookup list_lookup] in H4.
    rewrite Hlight in H4. apply (inj Some) in H4. rewrite H4. apply Hback. lia.
  - intros Hccs Hready Hco2 Htvoc Hbase.
    pose proof (Hfield 12%nat ltac:(lia)) as H12.
    pose proof (Hfield 13%nat ltac:(lia)) as H13.
    pose proof (Hfield 14%nat ltac:(lia)) as H14.
    unfold Sender.encoded_record in H12, H13, H14.
    cbn [lookup list_lookup] in H12, H13, H14.
    rewrite Hccs, Hready in H12, H13, H14. cbn [andb] in H12, H13, H14.
    apply (inj Some) in H12. apply (inj Some) in H13. apply (inj Some) in H14.
    rewrite H12, H13, H14. auto.
Qed.

End RecordOnItsWay.

Lemma X9_receiver_reads_packet_number_witness :
  Receiver.packet_number
    (record_bytes
       (Sender.results (Sender.before_transmit (pass false 1000 true) sender_start)))
  = 0.
Proof.
  destruct (X9_receiver_reads_packet_number (pass false 1000 true) sender_start)
    as [_ Hnumber].
  - vm_compute. reflexivity.
  - rewrite Hnumber. vm_compute. reflexivity.
Defined.

Lemma X10_record_delivered_whole_witness :
  exists payload : list byte,
    Sender.transmitted (bright_pass (375 # 16) 40000) sender_start = Some payload
    /\ map (int16_at payload) (seq 0 16)
       = [1; 2343; 0; 0; -25536; 0; 0; 0; 0; 0; 0; 0; 0; 0; 0; 0].
Proof.
  destruct (X10_record_delivered_whole (bright_pass (375 # 16) 40000)
              sender_start 0 Receiver.init)
    as (payload & Hsent & _ & _ & Hfields).
  - vm_compute. reflexivity.
  - vm_compute. reflexivity.
  - exists payload. split; [exact Hsent|].
    rewrite Hfields. vm_compute. reflexivity.
Defined.

Lemma X11_unsigned_sources_recoverable_witness :
  u16 (int16_at
         (record_bytes
            (Sender.results
               (Sender.before_transmit (bright_pass (375 # 16) 40000) sender_start)))
         4)
  = 40000.
Proof.
  destruct (X11_unsigned_sources_recoverable (bright_pass (375 # 16) 40000)
              sender_start) as [Hlux _].
  - vm_compute. reflexivity.
  - vm_compute. discriminate.
  - rewrite Hlux; vm_compute; reflexivity.
Defined.

(** * Further properties of the sender *)

Section SenderPasses.
Context `{FM : FloatModel}.
Import Sender.

Ltac project :=
  cbn [set_time_stamp set_result set_rain set_wind set_tx set_reset_pin
       bme_sensor_available mlx_sensor_available light_sensor_available
       ccs811_sensor_available radio_available InterruptCounter
       wind_revolutions_this_cycle firstLoop lastState lastChanged
       accumulated_rain_tips rain_data_pending results packetNumber
       lastTransmissionTime successfulTransmissions failedTransmissions
       time_stamp reset_pin].

Ltac solve_u16 :=
  unfold u16, i16 in *; Z.to_euclidean_division_equations; lia.

Lemma before_transmit_switch (i : inputs) (s : state) :
  firstLoop (before_transmit i s) = false
  /\ lastState (before_transmit i s)
     = (if firstLoop s || edge_validated i s then reed_level i else lastState s)
  /\ lastChanged (before_transmit i s)
     = (if edge_validated i s then reed_millis_set i else lastChanged s)
  /\ reset_pin (before_transmit i s) = reset_pin s.
Proof.
  unfold before_transmit, readAnemometerData, readRainDropData.
  rewrite readRainReedData_assigns, readCCS811Data_assigns,
    readTSL2591Data_assigns, readMLX90614Data_assigns, readBME280Data_assigns.
  unfold tip_counted, edge_validated. project. repeat split.
Qed.

Lemma transmitData_switch (i : inputs) (s : state) :
  firstLoop (transmitData i s) = firstLoop s
  /\ lastState (transmitData i s) = lastState s
  /\ lastChanged (transmitData i s) = lastChanged s
  /\ reset_pin (transmitData i s) = reset_pin s.
Proof.
  unfold transmitData.
  destruct (radio_available s), (radio_write i); project;
    try destruct (rain_data_pending s); project; repeat split.
Qed.

Lemma transmitData_skipped (i : inputs) (s : state) :
  radio_available s = false -> transmitData i s = s.
Proof. intros Hnone. unfold transmitData. rewrite Hnone. reflexivity. Qed.

Lemma checkAutoReset_switch (i : inputs) (s : state) :
  firstLoop (checkAutoReset i s) = firstLoop s
  /\ lastState (checkAutoReset i s) = lastState s
  /\ lastChanged (checkAutoReset i s) = lastChanged s
  /\ successfulTransmissions (checkAutoReset i s) = successfulTransmissions s
  /\ failedTransmissions (checkAutoReset i s) = failedTransmissions s
  /\ reset_pin (checkAutoReset i s)
     = reset_pin s && negb (RESET_INTERVAL <? reset_millis i).
Proof.
  unfold checkAutoReset.
  destruct (RESET_INTERVAL <? reset_millis i); project;
    rewrite ?andb_false_r, ?andb_true_r; repeat split.
Qed.

Lemma loop_switch (i : inputs) (s : state) :
  firstLoop (loop i s) = false
  /\ lastState (loop i s)
     = (if firstLoop s || edge_validated i s then reed_level i else lastState s)
  /\ lastChanged (loop i s)
     = (if edge_validated i s then reed_millis_set i else lastChanged s)
  /\ reset_pin (loop i s)
     = reset_pin s && negb (RESET_INTERVAL <? reset_millis i).
Proof.
  unfold loop.
  destruct (checkAutoReset_switch i (transmitData i (before_transmit i s)))
    as (H1 & H2 & H3 & _ & _ & H4).
  destruct (transmitData_switch i (before_transmit i s)) as (T1 & T2 & T3 & T4).
  destruct (before_transmit_switch i s) as (B1 & B2 & B3 & B4).
  rewrite H1, H2, H3, H4, T1, T2, T3, T4, B1, B2, B3, B4. repeat split.
Qed.

Lemma loop_radio (i : inputs) (s : state) :
  radio_available (loop i s) = radio_available s.
Proof.
  unfold loop.
  destruct (checkAutoReset_keeps i (transmitData i (before_transmit i s)))
    as (_ & _ & _ & _ & Hradio).
  destruct (before_transmit_globals i s) as (_ & Hsame & _).
  rewrite Hradio, transmitData_radio, Hsame. reflexivity.
Qed.

Lemma encoded_record_ignores_results (i : inputs) (s : state) (k : nat) (v : Z) :
  encoded_record i (set_result k v s) = encoded_record i s.
Proof. reflexivity. Qed.

(** X12. Every pass writes all sixteen slots of results before the send:
    the record handed to the radio does not depend on what a slot held
    before; when the CCS811 has no new data its three fields are 0, not
    the values of the previous pass. *)
Theorem X12_every_slot_rewritten (i : inputs) (s : state) (k : nat) (v : Z) :
  length (results s) = 16%nat ->
  results (before_transmit i (set_result k v s)) = results (before_transmit i s)
  /\ (ccs_data_ready i = false ->
      results (before_transmit i s) !! 12%nat = Some 0
      /\ results (before_transmit i s) !! 13%nat = Some 0
      /\ results (before_transmit i s) !! 14%nat = Some 0).
Proof.
  intros Hlen.
  rewrite (before_transmit_results i s Hlen).
  rewrite before_transmit_results
    by (cbn [set_result results]; rewrite length_insert; exact Hlen).
  split; [apply encoded_record_ignores_results|].
  intros Hnone. unfold encoded_record. cbn [lookup list_lookup].
  rewrite Hnone, andb_false_r. auto.
Qed.

(** X13. The first sample of the reed pin after start only records the
    level: whatever the level, no tip is counted, lastChanged keeps its
    value, and firstLoop is false from then on. *)
Theorem X13_first_sample_counts_nothing (i : inputs) (s : state) :
  firstLoop s = true ->
  accumulated_rain_tips (readRainReedData i s) = accumulated_rain_tips s
  /\ rain_data_pending (readRainReedData i s) = rain_data_pending s
  /\ lastState (readRainReedData i s) = reed_level i
  /\ lastChanged (readRainReedData i s) = lastChanged s
  /\ firstLoop (readRainReedData i s) = false
  /\ results (readRainReedData i s)
     = <[5%nat := i16 (accumulated_rain_tips s)]> (results s).
Proof.
  intros Hfirst. rewrite readRainReedData_assigns. project.
  unfold tip_counted, edge_validated. rewrite Hfirst. cbn [negb andb orb].
  repeat split.
Qed.

(** X14. Two passes in a row never both count a tip: after a counted tip
    lastState is HIGH, and a tip needs it LOW. *)
Theorem X14_no_two_tips_in_a_row (i1 i2 : inputs) (s : state) :
  tip_counted i1 s = true ->
  tip_counted i2 (loop i1 s) = false
  /\ lastState (loop i1 s) = true.
Proof.
  intros Htip.
  destruct (loop_switch i1 s) as (_ & Hlast & _).
  unfold tip_counted in Htip.
  apply andb_true_iff in Htip as [Hrest Hlow].
  apply andb_true_iff in Hrest as [Hedge Hhigh].
  assert (Hstate : lastState (loop i1 s) = true)
    by (rewrite Hlast, Hedge, orb_true_r; exact Hhigh).
  split; [|exact Hstate].
  unfold tip_counted. rewrite Hstate. apply andb_false_r.
Qed.

(** X15. A level change that was ignored inside the debounce window is
    not lost: when a later sample still shows that level, more than 250 ms
    after lastChanged, it is let through then, and counted if it is a
    change from LOW to HIGH. *)
Theorem X15_ignored_edge_taken_later (i1 i2 : inputs) (s : state) :
  firstLoop s = false ->
  reed_level i1 <> lastState s ->
  u32 (reed_millis i1 - lastChanged s) <= 250 ->
  reed_level i2 = reed_level i1 ->
  250 < u32 (reed_millis i2 - lastChanged s) ->
  edge_validated i2 (readRainReedData i1 s) = true
  /\ lastState (readRainReedData i2 (readRainReedData i1 s)) = reed_level i1
  /\ lastChanged (readRainReedData i2 (readRainReedData i1 s))
     = reed_millis_set i2
  /\ accumulated_rain_tips (readRainReedData i2 (readRainReedData i1 s))
     = (if reed_level i1 then u16 (accumulated_rain_tips s + 1)
        else accumulated_rain_tips s).
Proof.
  intros Hfirst Hdiffers Hwindow Hsame Hlater.
  assert (Hedge1 : edge_validated i1 s = false).
  { unfold edge_validated.
    assert (Hin : (250 <? u32 (reed_millis i1 - lastChanged s)) = false)
      by (apply Z.ltb_ge; exact Hwindow).
    rewrite Hin. apply andb_false_r. }
  assert (Htip1 : tip_counted i1 s = false)
    by (unfold tip_counted; rewrite Hedge1; reflexivity).
  assert (Hne : Bool.eqb (reed_level i1) (lastState s) = false)
    by (apply eqb_false_iff; exact Hdiffers).
  assert (Hedge2 : edge_validated i2 (readRainReedData i1 s) = true).
  { rewrite readRainReedData_assigns. unfold edge_validated at 1. project.
    rewrite Hedge1, Hfirst, Hsame. cbn [orb]. rewrite Hne. cbn [negb andb].
    apply Z.ltb_lt. exact Hlater. }
  split; [exact Hedge2|].
  rewrite (readRainReedData_assigns i2). project.
  rewrite Hedge2, orb_true_r.
  split; [exact Hsame|]. split; [reflexivity|].
  unfold tip_counted at 1. rewrite Hedge2.
  rewrite readRainReedData_assigns. project.
  rewrite Hedge1, Htip1, Hfirst, Hsame. cbn [orb andb].
  destruct (reed_level i1), (lastState s); cbn [negb andb];
    try reflexivity; exfalso; apply Hdiffers; reflexivity.
Qed.

Lemma loop_counters (i : inputs) (s : state) :
  packetNumber (loop i s)
  = (if radio_available s then u16 (packetNumber s + 1) else packetNumber s)
  /\ successfulTransmissions (loop i s)
     = (if radio_available s && radio_write i
        then u16 (successfulTransmissions s + 1)
        else successfulTransmissions s)
  /\ failedTransmissions (loop i s)
     = (if radio_available s && negb (radio_write i)
        then u16 (failedTransmissions s + 1)
        else failedTransmissions s).
Proof.
  unfold loop.
  destruct (checkAutoReset_switch i (transmitData i (before_transmit i s)))
    as (_ & _ & _ & Hsucc & Hfail & _).
  destruct (checkAutoReset_keeps i (transmitData i (before_transmit i s)))
    as (_ & Hnumber & _).
  destruct (before_transmit_globals i s)
    as (Bnumber & Hradio & Bsucc & Bfail & _).
  split.
  { rewrite Hnumber, transmitData_packetNumber, Hradio, Bnumber. reflexivity. }
  rewrite Hsucc, Hfail, <- Hradio, <- Bsucc, <- Bfail.
  destruct (radio_available (before_transmit i s)) eqn:Havail.
  - destruct (radio_write i) eqn:Hok.
    + destruct (transmitData_success i _ Havail Hok) as (_ & _ & S1 & S2).
      rewrite S1, S2. auto.
    + destruct (transmitData_failure i _ Havail Hok) as (_ & _ & F1 & F2).
      rewrite F1, F2. auto.
  - rewrite (transmitData_skipped i _ Havail). auto.
Qed.

Lemma loop_rain_count (i : inputs) (s : state) :
  radio_available s = false ->
  accumulated_rain_tips (loop i s)
  = (if tip_counted i s then u16 (accumulated_rain_tips s + 1)
     else accumulated_rain_tips s)
  /\ rain_data_pending (loop i s) = tip_counted i s || rain_data_pending s.
Proof.
  intros Hnone. unfold loop.
  destruct (checkAutoReset_keeps i (transmitData i (before_transmit i s)))
    as (_ & _ & Hacc & Hflag & _).
  destruct (before_transmit_globals i s) as (_ & Hradio & _ & _ & Btips & Bflag).
  rewrite Hnone in Hradio.
  rewrite Hacc, Hflag, (transmitData_skipped i _ Hradio), Btips, Bflag. auto.
Qed.

(** X16. When setup() did not find the radio, no pass hands a record to
    it: packetNumber and both transmission counters stay as they are over
    any number of passes, radio_available stays false, and the rain tips
    of each pass are added to the count, which is never cleared. *)
Theorem X16_without_radio (inputs_of_passes : list inputs) (i : inputs) (s : state) :
  radio_available s = false ->
  transmitted i s = None
  /\ accumulated_rain_tips (loop i s)
     = (if tip_counted i s then u16 (accumulated_rain_tips s + 1)
        else accumulated_rain_tips s)
  /\ rain_data_pending (loop i s) = tip_counted i s || rain_data_pending s
  /\ radio_available (SenderIO.passes inputs_of_passes s) = false
  /\ packetNumber (SenderIO.passes inputs_of_passes s) = packetNumber s
  /\ successfulTransmissions (SenderIO.passes inputs_of_passes s)
     = successfulTransmissions s
  /\ failedTransmissions (SenderIO.passes inputs_of_passes s)
     = failedTransmissions s.
Proof.
  intros Hnone.
  split; [unfold transmitted; rewrite Hnone; reflexivity|].
  destruct (loop_rain_count i s Hnone) as [Hacc Hflag].
  split; [exact Hacc|]. split; [exact Hflag|].
  clear Hacc Hflag. revert s Hnone.
  induction inputs_of_passes as [|j later IH]; intros s Hnone; [auto|].
  cbn [SenderIO.passes].
  assert (Hstill : radio_available (loop j s) = false)
    by (rewrite loop_radio; exact Hnone).
  destruct (IH _ Hstill) as (H1 & H2 & H3 & H4).
  destruct (loop_counters j s) as (L1 & L2 & L3).
  rewrite Hnone in L1, L2, L3. cbn [andb] in L2, L3.
  rewrite H1, H2, H3, H4, L1, L2, L3. auto.
Qed.

Lemma passes_accounted (inputs_of_passes : list inputs) (s : state) :
  u16 (successfulTransmissions s + failedTransmissions s - packetNumber s) = 0 ->
  0 <= packetNumber s < 65536 ->
  u16 (successfulTransmissions (SenderIO.passes inputs_of_passes s)
       + failedTransmissions (SenderIO.passes inputs_of_passes s))
  = packetNumber (SenderIO.passes inputs_of_passes s).
Proof.
  revert s. induction inputs_of_passes as [|j later IH]; intros s Hsum Hrange.
  - cbn [SenderIO.passes]. solve_u16.
  - cbn [SenderIO.passes]. apply IH.
    + destruct (loop_counters j s) as (L1 & L2 & L3). rewrite L1, L2, L3.
      destruct (radio_available s), (radio_write j); cbn [andb negb];
        solve_u16.
    + destruct (loop_counters j s) as (L1 & _). rewrite L1.
      destruct (radio_available s); [apply u16_range | exact Hrange].
Qed.

(** X17. After any number of passes since setup(), the successful and the
    failed transmissions together are the attempts: their sum modulo
    65536 equals packetNumber. *)
Theorem X17_attempts_accounted (inputs_of_passes : list inputs)
    (bme mlx light radio : bool) :
  u16 (successfulTransmissions
         (SenderIO.passes inputs_of_passes (init bme mlx light radio))
       + failedTransmissions
           (SenderIO.passes inputs_of_passes (init bme mlx light radio)))
  = packetNumber (SenderIO.passes inputs_of_passes (init bme mlx light radio)).
Proof.
  apply passes_accounted; cbn [init successfulTransmissions failedTransmissions
                                packetNumber]; [reflexivity | lia].
Qed.

Lemma transmitData_serial_stats (i : inputs) (s : state) :
  SenderIO.transmission_stats_lines (SenderIO.transmitData_serial i s)
  = (if radio_available s && (u16 (packetNumber s + 1) mod 100 =? 0)
     then 1%nat else 0%nat).
Proof.
  unfold SenderIO.transmitData_serial, SenderIO.printTransmissionStats.
  destruct (radio_available s); [|reflexivity].
  cbn [andb].
  destruct (u16 (packetNumber s + 1) mod 100 =? 0), (radio_write i),
    (rain_data_pending s), (rain_data_pending (transmitData i s));
    reflexivity.
Qed.

Lemma div_100_step (p : Z) :
  0 <= p ->
  (p + 1) / 100 = p / 100 + (if (p + 1) mod 100 =? 0 then 1 else 0).
Proof.
  intros Hp. destruct ((p + 1) mod 100 =? 0) eqn:Hmod.
  - apply Z.eqb_eq in Hmod. Z.to_euclidean_division_equations. lia.
  - apply Z.eqb_neq in Hmod. Z.to_euclidean_division_equations. lia.
Qed.

Lemma transmission_stats_lines_app (out1 out2 : list serial_out) :
  SenderIO.transmission_stats_lines (out1 ++ out2)
  = (SenderIO.transmission_stats_lines out1
     + SenderIO.transmission_stats_lines out2)%nat.
Proof.
  unfold SenderIO.transmission_stats_lines.
  rewrite filter_app, length_app. reflexivity.
Qed.

Lemma loop_next_number (j : inputs) (s : state) :
  radio_available s = true ->
  0 <= packetNumber s < 65535 ->
  packetNumber (loop j s) = packetNumber s + 1.
Proof.
  intros Hradio Hrange.
  destruct (loop_counters j s) as (L1 & _). rewrite Hradio in L1.
  rewrite L1. unfold u16. apply Z.mod_small. lia.
Qed.

Lemma transmit_log_stats (inputs_of_passes : list inputs) (s : state) :
  radio_available s = true ->
  0 <= packetNumber s ->
  packetNumber s + Z.of_nat (length inputs_of_passes) < 65536 ->
  Z.of_nat (SenderIO.transmission_stats_lines
              (SenderIO.transmit_log inputs_of_passes s))
  = (packetNumber s + Z.of_nat (length inputs_of_passes)) / 100
    - packetNumber s / 100.
Proof.
  revert s. induction inputs_of_passes as [|j later IH];
    intros s Hradio Hlow Hhigh.
  - change (SenderIO.transmit_log [] s) with (@nil serial_out).
    change (Z.of_nat (length (@nil inputs))) with 0.
    change (SenderIO.transmission_stats_lines []) with 0%nat.
    rewrite Z.add_0_r. change (Z.of_nat 0) with 0. lia.
  - change (length (j :: later)) with (S (length later)) in *.
    rewrite Nat2Z.inj_succ in Hhigh. rewrite Nat2Z.inj_succ.
    change (SenderIO.transmit_log (j :: later) s)
      with (SenderIO.transmitData_serial j (before_transmit j s)
            ++ SenderIO.transmit_log later (loop j s)).
    rewrite transmission_stats_lines_app, Nat2Z.inj_add,
      transmitData_serial_stats.
    destruct (before_transmit_globals j s) as (Bnumber & Bradio & _).
    rewrite Bnumber, Bradio, Hradio.
    pose proof (loop_next_number j s Hradio ltac:(lia)) as Hnext.
    pose proof (loop_radio j s) as Hradio'. rewrite Hradio in Hradio'.
    rewrite (IH (loop j s) Hradio') by (rewrite Hnext; lia).
    rewrite Hnext. unfold u16.
    rewrite (Z.mod_small (packetNumber s + 1) 65536) by lia.
    rewrite (div_100_step (packetNumber s) Hlow).
    replace (packetNumber s + Z.succ (Z.of_nat (length later)))
      with (packetNumber s + 1 + Z.of_nat (length later)) by lia.
    cbn [andb].
    destruct ((packetNumber s + 1) mod 100 =? 0);
      [change (Z.of_nat 1) with 1 | change (Z.of_nat 0) with 0]; lia.
Qed.

(** X18. With the radio there, transmitData prints the transmission
    statistics once for every attempt that brings packetNumber to a
    multiple of 100: over n passes that take packetNumber from p to p + n
    (below 65536) the line is printed (p + n) / 100 - p / 100 times. *)
Theorem X18_sender_statistics_every_100 (inputs_of_passes : list inputs) (s : state) :
  radio_available s = true ->
  0 <= packetNumber s ->
  packetNumber s + Z.of_nat (length inputs_of_passes) < 65536 ->
  Z.of_nat (SenderIO.transmission_stats_lines
              (SenderIO.transmit_log inputs_of_passes s))
  = (packetNumber s + Z.of_nat (length inputs_of_passes)) / 100
    - packetNumber s / 100
  /\ packetNumber (SenderIO.passes inputs_of_passes s)
     = packetNumber s + Z.of_nat (length inputs_of_passes).
Proof.
  intros Hradio Hlow Hhigh.
  split; [apply transmit_log_stats; assumption|].
  revert s Hradio Hlow Hhigh.
  induction inputs_of_passes as [|j later IH]; intros s Hradio Hlow Hhigh.
  - change (SenderIO.passes [] s) with s.
    change (Z.of_nat (length (@nil inputs))) with 0. lia.
  - change (length (j :: later)) with (S (length later)) in *.
    rewrite Nat2Z.inj_succ in Hhigh. rewrite Nat2Z.inj_succ.
    change (SenderIO.passes (j :: later) s)
      with (SenderIO.passes later (loop j s)).
    pose proof (loop_next_number j s Hradio ltac:(lia)) as Hnext.
    pose proof (loop_radio j s) as Hradio'. rewrite Hradio in Hradio'.
    rewrite (IH (loop j s) Hradio') by (rewrite Hnext; lia).
    rewrite Hnext. lia.
Qed.

(** X19. The reset pin is driven LOW by the first pass whose millis() in
    checkAutoReset exceeds 3600000 (3600000 itself does not) and no pass
    drives it HIGH again. *)
Theorem X19_reset_pin (inputs_of_passes : list inputs) (s : state) :
  reset_pin (SenderIO.passes inputs_of_passes s)
  = reset_pin s
    && forallb (fun i => reset_millis i <=? 3600000) inputs_of_passes.
Proof.
  revert s. induction inputs_of_passes as [|j later IH]; intros s.
  - cbn [SenderIO.passes forallb]. rewrite andb_true_r. reflexivity.
  - cbn [SenderIO.passes forallb]. rewrite IH.
    destruct (loop_switch j s) as (_ & _ & _ & Hpin). rewrite Hpin.
    unfold RESET_INTERVAL. rewrite (Z.leb_antisym 3600000 (reset_millis j)).
    rewrite andb_assoc. reflexivity.
Qed.

Lemma initializeCCS811_answers (answers : list Z) (s : state) :
  SenderIO.initializeCCS811 answers s
  = if existsb (fun answer => answer =? 0) answers
    then Some (SenderIO.set_available (bme_sensor_available s)
                 (mlx_sensor_available s) (light_sensor_available s) true
                 (radio_available s) s)
    else None.
Proof.
  induction answers as [|answer later IH]; [reflexivity|].
  cbn [SenderIO.initializeCCS811 existsb].
  destruct (answer =? 0); cbn [negb orb]; [reflexivity | exact IH].
Qed.

Lemma initializeBME280_sets (p : SenderIO.probes) (s : state) :
  SenderIO.initializeBME280 p s
  = SenderIO.set_available (SenderIO.bme_begin p) (mlx_sensor_available s)
      (light_sensor_available s) (ccs811_sensor_available s)
      (radio_available s) s.
Proof.
  unfold SenderIO.initializeBME280. destruct (SenderIO.bme_begin p); reflexivity.
Qed.

Lemma initializeMLX90614_sets (p : SenderIO.probes) (s : state) :
  SenderIO.initializeMLX90614 p s
  = SenderIO.set_available (bme_sensor_available s) (SenderIO.mlx_begin p)
      (light_sensor_available s) (ccs811_sensor_available s)
      (radio_available s) s.
Proof.
  unfold SenderIO.initializeMLX90614. destruct (SenderIO.mlx_begin p); reflexivity.
Qed.

Lemma initializeTSL2591_sets (p : SenderIO.probes) (s : state) :
  SenderIO.initializeTSL2591 p s
  = SenderIO.set_available (bme_sensor_available s) (mlx_sensor_available s)
      (SenderIO.tsl_init p =? 0) (ccs811_sensor_available s)
      (radio_available s) s.
Proof.
  unfold SenderIO.initializeTSL2591.
  destruct (SenderIO.tsl_init p =? 0); reflexivity.
Qed.

Lemma initializeRadio_sets (p : SenderIO.probes) (s : state) :
  SenderIO.initializeRadio p s
  = SenderIO.set_available (bme_sensor_available s) (mlx_sensor_available s)
      (light_sensor_available s) (ccs811_sensor_available s)
      (SenderIO.radio_begin p) s.
Proof.
  unfold SenderIO.initializeRadio. destruct (SenderIO.radio_begin p); reflexivity.
Qed.

(** X20. setup() comes to its end exactly when some ccs811.begin()
    answers 0; until then it stays in initializeCCS811 and the radio is
    not initialised. When it ends the globals are those of init: each
    availability flag as its probe answered (the TSL2591 is available when
    TSL2591_Init() is 0), the CCS811 flag true, the reset pin HIGH. *)
Theorem X20_setup (p : SenderIO.probes) :
  SenderIO.setup p
  = if existsb (fun answer => answer =? 0) (SenderIO.ccs_begin p)
    then Some (init (SenderIO.bme_begin p) (SenderIO.mlx_begin p)
                 (SenderIO.tsl_init p =? 0) (SenderIO.radio_begin p))
    else None.
Proof.
  unfold SenderIO.setup.
  rewrite initializeCCS811_answers, initializeTSL2591_sets,
    initializeMLX90614_sets, initializeBME280_sets.
  destruct (existsb (fun answer => answer =? 0) (SenderIO.ccs_begin p));
    [|reflexivity].
  rewrite initializeRadio_sets. unfold SenderIO.boot, init. vm_compute.
  reflexivity.
Qed.

(** X21. The integer readings go into the record as they are: the wind
    pulses of the window (up to 32767) in field 6, the analog rain reading
    in field 11, 1 in field 10 exactly when the digital rain pin is LOW,
    and 0 in the reserved field 15. *)
Theorem X21_integer_fields_exact (i : inputs) (s : state) :
  length (results s) = 16%nat ->
  (0 <= wind_pulses i <= 32767 ->
   results (before_transmit i s) !! 6%nat = Some (wind_pulses i)
   /\ wind_revolutions_this_cycle (before_transmit i s) = wind_pulses i)
  /\ (0 <= rain_analog i <= 32767 ->
      results (before_transmit i s) !! 11%nat = Some (rain_analog i))
  /\ results (before_transmit i s) !! 10%nat
     = Some (if rain_digital i then 0 else 1)
  /\ results (before_transmit i s) !! 15%nat = Some 0.
Proof.
  intros Hlen. rewrite (before_transmit_results i s Hlen).
  unfold encoded_record. cbn [lookup list_lookup].
  split; [|split; [|split]].
  - intros Hwind. split; [f_equal; solve_u16|].
    unfold before_transmit, readAnemometerData. project. solve_u16.
  - intros Hanalog. f_equal. solve_u16.
  - destruct (rain_digital i); reflexivity.
  - reflexivity.
Qed.

End SenderPasses.

Lemma X12_every_slot_rewritten_witness :
  Sender.results
    (Sender.before_transmit (pass false 1000 true)
       (Sender.set_result 12 4711 sender_start))
  = Sender.results (Sender.before_transmit (pass false 1000 true) sender_start).
Proof.
  destruct (X12_every_slot_rewritten (pass false 1000 true) sender_start
              12 4711) as [Hsame _].
  - vm_compute. reflexivity.
  - exact Hsame.
Defined.

Lemma X13_first_sample_counts_nothing_witness :
  Sender.accumulated_rain_tips
    (Sender.readRainReedData (pass true 1000 true) sender_start) = 0
  /\ Sender.lastState
       (Sender.readRainReedData (pass true 1000 true) sender_start) = true.
Proof.
  destruct (X13_first_sample_counts_nothing (pass true 1000 true) sender_start)
    as (Hcount & _ & Hlevel & _).
  - vm_compute. reflexivity.
  - split; [rewrite Hcount; vm_compute; reflexivity
           | rewrite Hlevel; vm_compute; reflexivity].
Defined.

Lemma X14_no_two_tips_in_a_row_witness :
  Sender.tip_counted (pass true 3000 true)
    (Sender.loop (pass true 2000 true)
       (Sender.loop (pass false 1000 true) sender_start)) = false.
Proof.
  destruct (X14_no_two_tips_in_a_row (pass true 2000 true) (pass true 3000 true)
              (Sender.loop (pass false 1000 true) sender_start))
    as [Hnone _].
  - vm_compute. reflexivity.
  - exact Hnone.
Defined.

Lemma X15_ignored_edge_taken_later_witness :
  Sender.accumulated_rain_tips
    (Sender.readRainReedData (pass true 1200 true)
       (Sender.readRainReedData (pass true 200 true)
          (Sender.readRainReedData (pass false 100 true) sender_start)))
  = 1.
Proof.
  destruct (X15_ignored_edge_taken_later (pass true 200 true)
              (pass true 1200 true)
              (Sender.readRainReedData (pass false 100 true) sender_start))
    as (_ & _ & _ & Hcount).
  - vm_compute. reflexivity.
  - vm_compute. discriminate.
  - vm_compute. discriminate.
  - vm_compute. reflexivity.
  - vm_compute. reflexivity.
  - rewrite Hcount. vm_compute. reflexivity.
Defined.

Lemma X16_without_radio_witness :
  Sender.packetNumber
    (SenderIO.passes [pass false 1000 true; pass true 2000 true]
       (@Sender.init exact_floats true true true false)) = 0
  /\ Sender.accumulated_rain_tips
       (Sender.loop (pass true 2000 true)
          (Sender.loop (pass false 1000 true)
             (@Sender.init exact_floats true true true false))) = 1.
Proof.
  destruct (X16_without_radio
              [pass false 1000 true; pass true 2000 true]
              (pass true 2000 true)
              (Sender.loop (pass false 1000 true)
                 (@Sender.init exact_floats true true true false)))
    as (_ & Hcount & _).
  - vm_compute. reflexivity.
  - destruct (X16_without_radio
                [pass false 1000 true; pass true 2000 true]
                (pass false 1000 true)
                (@Sender.init exact_floats true true true false))
      as (_ & _ & _ & _ & Hnumber & _).
    + vm_compute. reflexivity.
    + split; [rewrite Hnumber; vm_compute; reflexivity
             | rewrite Hcount; vm_compute; reflexivity].
Defined.

Lemma X18_sender_statistics_every_100_witness :
  SenderIO.transmission_stats_lines
    (SenderIO.transmit_log (repeat (pass false 1000 true) 250) sender_start)
  = 2%nat.
Proof.
  destruct (X18_sender_statistics_every_100
              (repeat (pass false 1000 true) 250) sender_start)
    as [Hlines _].
  - vm_compute. reflexivity.
  - vm_compute. discriminate.
  - vm_compute. reflexivity.
  - apply Nat2Z.inj. rewrite Hlines. vm_compute. reflexivity.
Defined.

Lemma X21_integer_fields_exact_witness :
  Sender.results (Sender.before_transmit (pass false 1000 true) sender_start)
    !! 10%nat = Some 0.
Proof.
  destruct (X21_integer_fields_exact (pass false 1000 true) sender_start)
    as (_ & _ & Hflag & _).
  - vm_compute. reflexivity.
  - rewrite Hflag. vm_compute. reflexivity.
Defined.
